(** * Front-GraphQL: repositories and stores

    A shallow embedding of the data-access layer of the task manager:
    the domain models, the two simulated (localStorage-backed) adapters,
    the two GraphQL adapters and the two Zustand stores.

    Modelling conventions.
    - A JavaScript [number] used as an identifier is an integer of [Z]
      (identifiers stay far inside the range where doubles are exact).
    - A [Date] is its time value, the milliseconds since the epoch; a
      time value out of the range of [Date] stands for the Invalid Date.
      The reading of the clock taken by [new Date()] is an explicit
      argument [now] of the operation that takes it.
    - A string is the sequence of the UTF-8 bytes of its text.
    - An [async] method whose body never awaits anything but its own
      timer is one atomic transition of the adapter's state.
    - [localStorage] is a finite map from keys to the JSON value that the
      stored text denotes; writes to it are taken to succeed.

    The React components are not part of the embedding, except for the
    two adapter calls of the button that fills in the sample data. *)

From Stdlib Require Import ZArith Lia.
From Stdlib Require Import Strings.Ascii Strings.String.
From Stdlib Require Import Numbers.DecimalString Numbers.DecimalN.
From stdpp Require Import base option list gmap strings.

Local Open Scope Z_scope.

(** ** JavaScript values *)

Definition Date := Z.

(** The ISO-8601 text of a date, as [Date.prototype.toISOString] renders
    it and [new Date(text)] reads it back; a text that [new Date] cannot
    read gives the Invalid Date, a time value out of range. *)
Inductive IsoString := Iso (ms : Z).

Definition toISOString (d : Date) : IsoString := Iso d.
Definition Date_of (s : IsoString) : Date := let 'Iso ms := s in ms.

(** A [Date] holds a time value of at most 8.64e15 milliseconds either
    side of the epoch; [new Date(value)] of anything else is the Invalid
    Date, on which [toISOString] throws a [RangeError]. *)
Definition valid_date (d : Date) : bool :=
  (-8640000000000000 <=? d) && (d <=? 8640000000000000).

(** The result of [parseInt]: [NaN] or an integer. *)
Inductive numeric := NaN | Int (z : Z).

Global Instance numeric_eq_dec : EqDecision numeric.
Proof. solve_decision. Defined.

(** An argument of type [string | number]. *)
Inductive IdArg := IdNum (n : Z) | IdStr (s : string).

(** A string is truthy when it is not empty. *)
Definition truthy (s : string) : bool :=
  match s with EmptyString => false | String _ _ => true end.

(** [Math.max(...xs)]; [None] is the [-Infinity] of an empty argument list. *)
Fixpoint Math_max (xs : list Z) : option Z :=
  match xs with
  | [] => None
  | x :: xs' => Some (match Math_max xs' with None => x | Some m => Z.max x m end)
  end.

(** *** parseInt *)

(** The white space that [parseInt] skips ([StrWhiteSpaceChar]) is TAB,
    LF, VT, FF, CR and SPACE, and beyond ASCII the characters U+00A0,
    U+1680, U+2000 to U+200A, U+2028, U+2029, U+202F, U+205F, U+3000 and
    U+FEFF, which UTF-8 writes in two or three bytes. *)
Definition is_StrWhiteSpaceChar (c : ascii) : bool :=
  let n := nat_of_ascii c in
  (Nat.eqb n 9 || Nat.eqb n 10 || Nat.eqb n 11 || Nat.eqb n 12
   || Nat.eqb n 13 || Nat.eqb n 32)%bool.

(** U+00A0 is [C2 A0]. *)
Definition is_StrWhiteSpaceChar2 (c1 c2 : ascii) : bool :=
  (Z.of_nat (nat_of_ascii c1) =? 0xC2) && (Z.of_nat (nat_of_ascii c2) =? 0xA0).

(** U+1680 is [E1 9A 80]; U+2000 to U+200A, U+2028, U+2029 and U+202F
    are [E2 80] and then [80] to [8A], [A8], [A9] and [AF]; U+205F is
    [E2 81 9F]; U+3000 is [E3 80 80]; U+FEFF is [EF BB BF]. *)
Definition is_StrWhiteSpaceChar3 (c1 c2 c3 : ascii) : bool :=
  let b1 := Z.of_nat (nat_of_ascii c1) in
  let b2 := Z.of_nat (nat_of_ascii c2) in
  let b3 := Z.of_nat (nat_of_ascii c3) in
  (b1 =? 0xE1) && (b2 =? 0x9A) && (b3 =? 0x80)
  || (b1 =? 0xE2) && (b2 =? 0x80)
     && ((0x80 <=? b3) && (b3 <=? 0x8A) || (b3 =? 0xA8) || (b3 =? 0xA9) || (b3 =? 0xAF))
  || (b1 =? 0xE2) && (b2 =? 0x81) && (b3 =? 0x9F)
  || (b1 =? 0xE3) && (b2 =? 0x80) && (b3 =? 0x80)
  || (b1 =? 0xEF) && (b2 =? 0xBB) && (b3 =? 0xBF).

Fixpoint trimStart (s : string) : string :=
  match s with
  | EmptyString => EmptyString
  | String c1 s1 =>
      if is_StrWhiteSpaceChar c1 then trimStart s1
      else
        match s1 with
        | EmptyString => s
        | String c2 s2 =>
            if is_StrWhiteSpaceChar2 c1 c2 then trimStart s2
            else
              match s2 with
              | EmptyString => s
              | String c3 s3 =>
                  if is_StrWhiteSpaceChar3 c1 c2 c3 then trimStart s3 else s
              end
        end
  end.

(** The value of a character as a digit, letters counting from ten. *)
Definition digit_value (c : ascii) : option Z :=
  let n := Z.of_nat (nat_of_ascii c) in
  if (48 <=? n) && (n <=? 57) then Some (n - 48)
  else if (97 <=? n) && (n <=? 122) then Some (n - 97 + 10)
  else if (65 <=? n) && (n <=? 90) then Some (n - 65 + 10)
  else None.

(** Reads the longest prefix of radix-[R] digits; [acc] is the value read
    so far, [None] while no digit has been read. *)
Fixpoint parse_digits (R : Z) (acc : option Z) (s : string) : option Z :=
  match s with
  | EmptyString => acc
  | String c s' =>
      match digit_value c with
      | Some v =>
          if v <? R then parse_digits R (Some (default 0 acc * R + v)) s'
          else acc
      | None => acc
      end
  end.

(** An optional sign in front of the numeral. *)
Definition strip_sign (s : string) : Z * string :=
  match s with
  | String "-"%char rest => (-1, rest)
  | String "+"%char rest => (1, rest)
  | _ => (1, s)
  end.

(** With no radix argument, a [0x] or [0X] prefix selects radix 16;
    otherwise the radix is 10. *)
Definition strip_prefix (s : string) : Z * string :=
  match s with
  | String "0"%char (String "x"%char rest) => (16, rest)
  | String "0"%char (String "X"%char rest) => (16, rest)
  | _ => (10, s)
  end.

(** [parseInt(s)] with no radix argument: leading white space, an
    optional sign, an optional hexadecimal prefix, then the digits;
    [NaN] when there is no digit. *)
Definition parseInt (s : string) : numeric :=
  let '(sign, unsigned) := strip_sign (trimStart s) in
  let '(R, digits) := strip_prefix unsigned in
  match parse_digits R None digits with
  | None => NaN
  | Some mathInt => Int (sign * mathInt)
  end.

(** [typeof id === 'string' ? parseInt(id) : id] *)
Definition numericId (id : IdArg) : numeric :=
  match id with
  | IdStr s => parseInt s
  | IdNum n => Int n
  end.

(** The decimal numeral of a natural number. *)
Definition decimal (n : N) : string := NilEmpty.string_of_uint (N.to_uint n).

(** ** Domain models *)

Module Todo.
Record t := mk {
  id : Z;
  title : string;
  completed : bool;
  userId : option Z;
  createdAt : Date;
  updatedAt : option Date
}.
End Todo.

Global Instance Todo_eq_dec : EqDecision Todo.t.
Proof. solve_decision. Defined.

Record CreateTodoInput := {
  cti_title : string;
  cti_completed : option bool;
  cti_userId : option Z
}.

Record UpdateTodoInput := {
  uti_id : Z;
  uti_title : option string;
  uti_completed : option bool;
  uti_userId : option Z
}.

Module User.
Record t := mk {
  id : Z;
  name : string;
  email : string;
  createdAt : Date;
  updatedAt : option Date
}.
End User.

Global Instance User_eq_dec : EqDecision User.t.
Proof. solve_decision. Defined.

Record CreateUserInput := {
  cui_name : string;
  cui_email : string
}.

Record UpdateUserInput := {
  uui_id : Z;
  uui_name : option string;
  uui_email : option string
}.

(** ** JSON shapes

    The entities as they travel as JSON, in [localStorage] and in the
    responses of the remote service: dates are ISO strings, an
    [undefined] property is absent. *)

Record TodoJson := {
  tj_id : Z;
  tj_title : string;
  tj_completed : bool;
  tj_userId : option Z;
  tj_createdAt : IsoString;
  tj_updatedAt : option IsoString
}.

Record UserJson := {
  uj_id : Z;
  uj_name : string;
  uj_email : string;
  uj_createdAt : IsoString;
  uj_updatedAt : option IsoString
}.

(** [{...todo, createdAt: todo.createdAt.toISOString(),
      updatedAt: todo.updatedAt ? todo.updatedAt.toISOString() : undefined}] *)
Definition todo_to_json (todo : Todo.t) : TodoJson :=
  {| tj_id := Todo.id todo;
     tj_title := Todo.title todo;
     tj_completed := Todo.completed todo;
     tj_userId := Todo.userId todo;
     tj_createdAt := toISOString (Todo.createdAt todo);
     tj_updatedAt := toISOString <$> Todo.updatedAt todo |}.

(** [{...todo, createdAt: new Date(todo.createdAt),
      updatedAt: todo.updatedAt ? new Date(todo.updatedAt) : undefined}] *)
Definition todo_of_json (todo : TodoJson) : Todo.t :=
  {| Todo.id := tj_id todo;
     Todo.title := tj_title todo;
     Todo.completed := tj_completed todo;
     Todo.userId := tj_userId todo;
     Todo.createdAt := Date_of (tj_createdAt todo);
     Todo.updatedAt := Date_of <$> tj_updatedAt todo |}.

Definition user_to_json (user : User.t) : UserJson :=
  {| uj_id := User.id user;
     uj_name := User.name user;
     uj_email := User.email user;
     uj_createdAt := toISOString (User.createdAt user);
     uj_updatedAt := toISOString <$> User.updatedAt user |}.

Definition user_of_json (user : UserJson) : User.t :=
  {| User.id := uj_id user;
     User.name := uj_name user;
     User.email := uj_email user;
     User.createdAt := Date_of (uj_createdAt user);
     User.updatedAt := Date_of <$> uj_updatedAt user |}.

(** ** localStorage *)

(** What the text kept under a key denotes: an array of tasks, an array
    of users, or text that [JSON.parse] rejects.  Each adapter writes
    only arrays of its own entity under its own key; a loader that meets
    anything else under its key is modelled as taking its [catch]. *)
Inductive StoredData :=
  | Unparsable
  | TodoArray (l : list TodoJson)
  | UserArray (l : list UserJson).

Abbreviation Storage := (gmap string StoredData).

(** ** Array helpers *)

(** [Array.prototype.find]: the first element satisfying the predicate,
    [None] for [undefined].  Where the source pairs [findIndex] with a read
    of [array[index]], the embedding uses stdpp's [list_find], which
    yields the index and the element together ([None] for [-1]). *)
Definition find {A} (P : A → Prop) `{∀ x, Decision (P x)} (l : list A) : option A :=
  snd <$> list_find P l.

(** ** Seed data *)

(** [generateUserSeedData(nextId)]: three users, the ids counting up
    from [nextId], created [now], one day and two days before. *)
Definition generateUserSeedData (now : Date) (nextId : Z) : list User.t :=
  [ {| User.id := nextId;
       User.name := "Juan Pérez";
       User.email := "juan@example.com";
       User.createdAt := now;
       User.updatedAt := None |};
    {| User.id := nextId + 1;
       User.name := "María López";
       User.email := "maria@example.com";
       User.createdAt := now - 24 * 60 * 60 * 1000;
       User.updatedAt := None |};
    {| User.id := nextId + 2;
       User.name := "Carlos Rodríguez";
       User.email := "carlos@example.com";
       User.createdAt := now - 48 * 60 * 60 * 1000;
       User.updatedAt := None |} ].

(** The four dates of [generateTodoSeedData]: the clock reading and the
    three dates that the calendar ([setDate], [setMonth]) derives from it,
    a day, a week and a month back; none of them is the Invalid Date. *)
Record SeedDates := {
  sd_now : Date;
  sd_yesterday : Date;
  sd_lastWeek : Date;
  sd_lastMonth : Date;
  sd_valid :
    forallb valid_date [sd_now; sd_yesterday; sd_lastWeek; sd_lastMonth] = true
}.

(** [generateTodoSeedData(nextId)]: three completed and four pending
    tasks, the ids counting up from [nextId], owned by users 1, 2 and 3. *)
Definition generateTodoSeedData (dates : SeedDates) (nextId : Z) : list Todo.t :=
  [ {| Todo.id := nextId;
       Todo.title := "Revisar documentación de GraphQL";
       Todo.completed := true;
       Todo.userId := Some 1;
       Todo.createdAt := sd_lastMonth dates;
       Todo.updatedAt := Some (sd_lastWeek dates) |};
    {| Todo.id := nextId + 1;
       Todo.title := "Configurar entorno de desarrollo";
       Todo.completed := true;
       Todo.userId := Some 1;
       Todo.createdAt := sd_lastMonth dates;
       Todo.updatedAt := Some (sd_lastWeek dates) |};
    {| Todo.id := nextId + 2;
       Todo.title := "Implementar componente TodoList";
       Todo.completed := true;
       Todo.userId := Some 2;
       Todo.createdAt := sd_lastWeek dates;
       Todo.updatedAt := Some (sd_yesterday dates) |};
    {| Todo.id := nextId + 3;
       Todo.title := "Optimizar consultas GraphQL";
       Todo.completed := false;
       Todo.userId := Some 2;
       Todo.createdAt := sd_yesterday dates;
       Todo.updatedAt := None |};
    {| Todo.id := nextId + 4;
       Todo.title := "Implementar filtros de búsqueda";
       Todo.completed := false;
       Todo.userId := Some 1;
       Todo.createdAt := sd_yesterday dates;
       Todo.updatedAt := None |};
    {| Todo.id := nextId + 5;
       Todo.title := "Añadir pruebas unitarias";
       Todo.completed := false;
       Todo.userId := Some 3;
       Todo.createdAt := sd_now dates;
       Todo.updatedAt := None |};
    {| Todo.id := nextId + 6;
       Todo.title := "Mejorar estilos CSS";
       Todo.completed := false;
       Todo.userId := Some 3;
       Todo.createdAt := sd_now dates;
       Todo.updatedAt := None |} ].

(** ** The simulated task adapter *)

Module MockTodoRepository.

Definition LOCAL_STORAGE_KEY : string := "mock_todos".

Record t := mk {
  todos : list Todo.t;
  nextId : Z
}.

(** The field initialisers: [todos = []], [nextId = 1]. *)
Definition initial : t := {| todos := []; nextId := 1 |}.

(** The dates of a task that [saveToLocalStorage] renders with
    [toISOString]: [createdAt], and [updatedAt] when there is one. *)
Definition serializable (todo : Todo.t) : bool :=
  valid_date (Todo.createdAt todo)
  && from_option valid_date true (Todo.updatedAt todo).

(** [try { todosToSave = this.todos.map(...toISOString()...);
          localStorage.setItem(LOCAL_STORAGE_KEY, JSON.stringify(todosToSave)) }
     catch (error) { console.error(...) }]: when [toISOString] throws on
    one of the dates, nothing is written. *)
Definition saveToLocalStorage (this : t) (localStorage : Storage) : Storage :=
  if forallb serializable (todos this)
  then <[LOCAL_STORAGE_KEY := TodoArray (todo_to_json <$> todos this)]> localStorage
  else localStorage.

(** Reads the slot back into [todos]; [nextId] is not touched.  Text
    that does not parse to an array of tasks lands in the [catch]. *)
Definition loadFromLocalStorage (this : t) (localStorage : Storage) : t :=
  match localStorage !! LOCAL_STORAGE_KEY with
  | None => this
  | Some (TodoArray parsedData) =>
      {| todos := todo_of_json <$> parsedData; nextId := nextId this |}
  | Some _ => {| todos := []; nextId := nextId this |}
  end.

Definition constructor (initialTodos : list Todo.t) (localStorage : Storage)
  : t * Storage :=
  let this := loadFromLocalStorage initial localStorage in
  if Nat.eqb (length (todos this)) 0 then
    if Nat.ltb 0 (length initialTodos) then
      let this := {| todos := initialTodos; nextId := nextId this |} in
      (this, saveToLocalStorage this localStorage)
    else (this, localStorage)
  else (this, localStorage).

(** [localStorage.removeItem(LOCAL_STORAGE_KEY); this.todos = []] *)
Definition clearLocalStorage (this : t) (localStorage : Storage) : t * Storage :=
  ({| todos := []; nextId := nextId this |}, delete LOCAL_STORAGE_KEY localStorage).

Definition getTodos (this : t) : list Todo.t := todos this.

Definition getTodoById (id : IdArg) (this : t) : option Todo.t :=
  let numericId := numericId id in
  find (λ todo, Int (Todo.id todo) = numericId) (todos this).

Definition createTodo (now : Date) (input : CreateTodoInput)
    (this : t) (localStorage : Storage) : Todo.t * t * Storage :=
  let newTodo :=
    {| Todo.id := nextId this;
       Todo.title := cti_title input;
       Todo.completed := default false (cti_completed input);
       Todo.userId := cti_userId input;
       Todo.createdAt := now;
       Todo.updatedAt := None |} in
  let this := {| todos := todos this ++ [newTodo]; nextId := nextId this + 1 |} in
  (newTodo, this, saveToLocalStorage this localStorage).

(** The patch of [updateTodo]: the title is spread in under the guard
    [input.title && ...], the two other fields under [!== undefined]. *)
Definition patch (now : Date) (input : UpdateTodoInput) (old : Todo.t) : Todo.t :=
  {| Todo.id := Todo.id old;
     Todo.title :=
       match uti_title input with
       | Some title => if truthy title then title else Todo.title old
       | None => Todo.title old
       end;
     Todo.completed := default (Todo.completed old) (uti_completed input);
     Todo.userId :=
       match uti_userId input with
       | Some userId => Some userId
       | None => Todo.userId old
       end;
     Todo.createdAt := Todo.createdAt old;
     Todo.updatedAt := Some now |}.

(** [list_find] yields the index of [findIndex] together with
    [this.todos[index]]. *)
Definition updateTodo (now : Date) (input : UpdateTodoInput)
    (this : t) (localStorage : Storage) : option Todo.t * t * Storage :=
  match list_find (λ todo, Todo.id todo = uti_id input) (todos this) with
  | None => (None, this, localStorage)
  | Some (index, old) =>
      let updatedTodo := patch now input old in
      let this := {| todos := <[index := updatedTodo]> (todos this);
                     nextId := nextId this |} in
      (Some updatedTodo, this, saveToLocalStorage this localStorage)
  end.

Definition deleteTodo (id : IdArg) (this : t) (localStorage : Storage)
  : bool * t * Storage :=
  let numericId := numericId id in
  let initialLength := length (todos this) in
  let this := {| todos := filter (λ todo, Int (Todo.id todo) ≠ numericId) (todos this);
                 nextId := nextId this |} in
  let deleted := negb (Nat.eqb (length (todos this)) initialLength) in
  (deleted, this, if deleted then saveToLocalStorage this localStorage else localStorage).

Definition toggled (now : Date) (old : Todo.t) : Todo.t :=
  {| Todo.id := Todo.id old;
     Todo.title := Todo.title old;
     Todo.completed := negb (Todo.completed old);
     Todo.userId := Todo.userId old;
     Todo.createdAt := Todo.createdAt old;
     Todo.updatedAt := Some now |}.

Definition toggleComplete (now : Date) (id : IdArg)
    (this : t) (localStorage : Storage) : option Todo.t * t * Storage :=
  let numericId := numericId id in
  match list_find (λ todo, Int (Todo.id todo) = numericId) (todos this) with
  | None => (None, this, localStorage)
  | Some (index, old) =>
      let updatedTodo := toggled now old in
      let this := {| todos := <[index := updatedTodo]> (todos this);
                     nextId := nextId this |} in
      (Some updatedTodo, this, saveToLocalStorage this localStorage)
  end.

(** A run of [createTodo] calls, each with its clock reading. *)
Fixpoint createTodos (calls : list (Date * CreateTodoInput))
    (this : t) (localStorage : Storage) : list Todo.t * t * Storage :=
  match calls with
  | [] => ([], this, localStorage)
  | (now, input) :: calls' =>
      let '(newTodo, this, localStorage) := createTodo now input this localStorage in
      let '(rest, this, localStorage) := createTodos calls' this localStorage in
      (newTodo :: rest, this, localStorage)
  end.

(** [generateSeedData()]: the seed tasks numbered from the counter, and
    the counter moved past the largest of their ids. *)
Definition generateSeedData (dates : SeedDates) (this : t) : list Todo.t * t :=
  let seeds := generateTodoSeedData dates (nextId this) in
  if Nat.ltb 0 (length seeds) then
    match Math_max (Todo.id <$> seeds) with
    | Some maxId => (seeds, {| todos := todos this; nextId := maxId + 1 |})
    | None => (seeds, this)
    end
  else (seeds, this).

(** [this.todos = this.generateSeedData(); this.saveToLocalStorage()] *)
Definition fillWithSampleData (dates : SeedDates) (this : t) (localStorage : Storage)
  : t * Storage :=
  let '(seeds, this) := generateSeedData dates this in
  let this := {| todos := seeds; nextId := nextId this |} in
  (this, saveToLocalStorage this localStorage).

End MockTodoRepository.

(** ** The simulated user adapter *)

Module MockUserRepository.

Definition LOCAL_STORAGE_KEY : string := "mock_users".

Record t := mk {
  users : list User.t;
  nextId : Z
}.

Definition initial : t := {| users := []; nextId := 1 |}.

(** [localStorage.setItem(LOCAL_STORAGE_KEY, JSON.stringify(this.users, ...))]:
    the dates are rendered inside [JSON.stringify], which does not throw
    on them. *)
Definition saveToLocalStorage (this : t) (localStorage : Storage) : Storage :=
  <[LOCAL_STORAGE_KEY := UserArray (user_to_json <$> users this)]> localStorage.

(** Reads the slot back into [users] and, when it is not empty, moves
    [nextId] past the largest stored id. *)
Definition loadFromLocalStorage (this : t) (localStorage : Storage) : t :=
  match localStorage !! LOCAL_STORAGE_KEY with
  | None => this
  | Some (UserArray parsed) =>
      let users := user_of_json <$> parsed in
      if Nat.ltb 0 (length users) then
        match Math_max (User.id <$> users) with
        | Some maxId => {| users := users; nextId := maxId + 1 |}
        | None => {| users := users; nextId := nextId this |}
        end
      else {| users := users; nextId := nextId this |}
  | Some _ => {| users := []; nextId := nextId this |}
  end.

Definition constructor (initialUsers : list User.t) (localStorage : Storage)
  : t * Storage :=
  let this := loadFromLocalStorage initial localStorage in
  if Nat.eqb (length (users this)) 0 then
    if Nat.ltb 0 (length initialUsers) then
      let this := {| users := initialUsers; nextId := nextId this |} in
      (this, saveToLocalStorage this localStorage)
    else (this, localStorage)
  else (this, localStorage).

Definition clearLocalStorage (this : t) (localStorage : Storage) : t * Storage :=
  ({| users := []; nextId := nextId this |}, delete LOCAL_STORAGE_KEY localStorage).

Definition getUsers (this : t) : list User.t := users this.

Definition getUserById (id : Z) (this : t) : option User.t :=
  find (λ user, User.id user = id) (users this).

Definition createUser (now : Date) (input : CreateUserInput)
    (this : t) (localStorage : Storage) : User.t * t * Storage :=
  let newUser :=
    {| User.id := nextId this;
       User.name := cui_name input;
       User.email := cui_email input;
       User.createdAt := now;
       User.updatedAt := None |} in
  let this := {| users := users this ++ [newUser]; nextId := nextId this + 1 |} in
  (newUser, this, saveToLocalStorage this localStorage).

(** [if (input.name !== undefined) ...; if (input.email !== undefined) ...;
    updatedUser.updatedAt = new Date()] *)
Definition patch (now : Date) (input : UpdateUserInput) (old : User.t) : User.t :=
  {| User.id := User.id old;
     User.name := default (User.name old) (uui_name input);
     User.email := default (User.email old) (uui_email input);
     User.createdAt := User.createdAt old;
     User.updatedAt := Some now |}.

Definition updateUser (now : Date) (input : UpdateUserInput)
    (this : t) (localStorage : Storage) : option User.t * t * Storage :=
  match list_find (λ user, User.id user = uui_id input) (users this) with
  | None => (None, this, localStorage)
  | Some (index, old) =>
      let updatedUser := patch now input old in
      let this := {| users := <[index := updatedUser]> (users this);
                     nextId := nextId this |} in
      (Some updatedUser, this, saveToLocalStorage this localStorage)
  end.

Definition deleteUser (id : Z) (this : t) (localStorage : Storage)
  : bool * t * Storage :=
  let initialLength := length (users this) in
  let this := {| users := filter (λ user, User.id user ≠ id) (users this);
                 nextId := nextId this |} in
  let deleted := Nat.ltb (length (users this)) initialLength in
  (deleted, this, if deleted then saveToLocalStorage this localStorage else localStorage).

Fixpoint createUsers (calls : list (Date * CreateUserInput))
    (this : t) (localStorage : Storage) : list User.t * t * Storage :=
  match calls with
  | [] => ([], this, localStorage)
  | (now, input) :: calls' =>
      let '(newUser, this, localStorage) := createUser now input this localStorage in
      let '(rest, this, localStorage) := createUsers calls' this localStorage in
      (newUser :: rest, this, localStorage)
  end.

Definition generateSeedData (now : Date) (this : t) : list User.t * t :=
  let seeds := generateUserSeedData now (nextId this) in
  if Nat.ltb 0 (length seeds) then
    match Math_max (User.id <$> seeds) with
    | Some maxId => (seeds, {| users := users this; nextId := maxId + 1 |})
    | None => (seeds, this)
    end
  else (seeds, this).

Definition fillWithSampleData (now : Date) (this : t) (localStorage : Storage)
  : t * Storage :=
  let '(seeds, this) := generateSeedData now this in
  let this := {| users := seeds; nextId := nextId this |} in
  (this, saveToLocalStorage this localStorage).

End MockUserRepository.

(** ** The two simulated adapters side by side

    One browser tab: both adapters and the one [localStorage] they share. *)

Record Browser := {
  userRepository : MockUserRepository.t;
  todoRepository : MockTodoRepository.t;
  localStorage : Storage
}.

Definition Browser_deleteUser (id : Z) (b : Browser) : bool * Browser :=
  let '(deleted, users, storage) :=
    MockUserRepository.deleteUser id (userRepository b) (localStorage b) in
  (deleted, {| userRepository := users;
               todoRepository := todoRepository b;
               localStorage := storage |}).

(** ** Promises that may reject *)

(** A thrown value: an [Error] with its message, or anything else. *)
Inductive Thrown := ErrorObject (message : string) | OtherValue.

(** How an awaited call ends. *)
Inductive Outcome (A : Type) :=
  | Returns (a : A)
  | Throws (e : Thrown).
Arguments Returns {A} a.
Arguments Throws {A} e.

Definition bind {A B} (m : Outcome A) (k : A → Outcome B) : Outcome B :=
  match m with
  | Returns a => k a
  | Throws e => Throws e
  end.

Notation "x ← 'await' m ; k" := (bind m (λ x, k))
  (at level 20, m at level 100, k at level 200, only parsing).

(** [try { body } catch (error) { handler }] *)
Definition try_catch {A} (body : Outcome A) (handler : Thrown → Outcome A) : Outcome A :=
  match body with
  | Returns a => Returns a
  | Throws e => handler e
  end.

Definition didThrow {A} (m : Outcome A) : bool :=
  match m with Returns _ => false | Throws _ => true end.

(** What Apollo resolves with: [{ data }], where [data] may be [null]
    and otherwise carries the one selected field. *)
Definition ApolloResult (A : Type) := Outcome (option A).

(** Reading the selected field off [data]; a [TypeError] on [null]. *)
Definition field {A} (data : option A) : Outcome A :=
  match data with
  | Some a => Returns a
  | None => Throws (ErrorObject "Cannot read properties of null")
  end.

(** ** The GraphQL task adapter *)

Module GraphQLTodoRepository.

(** The transport: what the client answers to each fixed operation. *)
Record ApolloClient := {
  GET_TODOS : ApolloResult (list TodoJson);
  GET_TODO_BY_ID : string → ApolloResult (option TodoJson);
  CREATE_TODO : CreateTodoInput → ApolloResult (option TodoJson);
  UPDATE_TODO : UpdateTodoInput → ApolloResult (option TodoJson);
  DELETE_TODO : string → ApolloResult bool;
  TOGGLE_COMPLETE : string → ApolloResult (option TodoJson)
}.

Definition getTodos (client : ApolloClient) : Outcome (list Todo.t) :=
  data ← await GET_TODOS client;
  todos ← await field data;
  Returns (todo_of_json <$> todos).

Definition getTodoById (client : ApolloClient) (id : string) : Outcome (option Todo.t) :=
  try_catch
    (data ← await GET_TODO_BY_ID client id;
     todo ← await field data;
     match todo with
     | None => Returns None
     | Some todo => Returns (Some (todo_of_json todo))
     end)
    (λ error, Returns None).

Definition createTodo (client : ApolloClient) (input : CreateTodoInput) : Outcome Todo.t :=
  try_catch
    (data ← await CREATE_TODO client input;
     created ← await field data;
     match created with
     | None => Throws (ErrorObject "No se pudo crear el todo")
     | Some todo => Returns (todo_of_json todo)
     end)
    (λ error, Throws error).

Definition updateTodo (client : ApolloClient) (input : UpdateTodoInput)
  : Outcome (option Todo.t) :=
  try_catch
    (data ← await UPDATE_TODO client input;
     updated ← await field data;
     match updated with
     | None => Returns None
     | Some todo => Returns (Some (todo_of_json todo))
     end)
    (λ error, Returns None).

Definition deleteTodo (client : ApolloClient) (id : string) : Outcome bool :=
  try_catch
    (data ← await DELETE_TODO client id;
     deleted ← await field data;
     Returns deleted)
    (λ error, Returns false).

Definition toggleComplete (client : ApolloClient) (id : string)
  : Outcome (option Todo.t) :=
  try_catch
    (data ← await TOGGLE_COMPLETE client id;
     toggled ← await field data;
     match toggled with
     | None => Returns None
     | Some todo => Returns (Some (todo_of_json todo))
     end)
    (λ error, Returns None).

End GraphQLTodoRepository.

(** ** The GraphQL user adapter

    The same operations, written without any [try]/[catch]. *)

Module GraphQLUserRepository.

Record ApolloClient := {
  GetUsers : ApolloResult (list UserJson);
  GetUser : Z → ApolloResult (option UserJson);
  CreateUser : CreateUserInput → ApolloResult (option UserJson);
  UpdateUser : UpdateUserInput → ApolloResult (option UserJson);
  DeleteUser : Z → ApolloResult bool
}.

Definition getUsers (client : ApolloClient) : Outcome (list User.t) :=
  data ← await GetUsers client;
  users ← await field data;
  Returns (user_of_json <$> users).

Definition getUserById (client : ApolloClient) (id : Z) : Outcome (option User.t) :=
  data ← await GetUser client id;
  user ← await field data;
  match user with
  | None => Returns None
  | Some user => Returns (Some (user_of_json user))
  end.

Definition createUser (client : ApolloClient) (input : CreateUserInput) : Outcome User.t :=
  data ← await CreateUser client input;
  created ← await field data;
  user ← await field created;
  Returns (user_of_json user).

Definition updateUser (client : ApolloClient) (input : UpdateUserInput)
  : Outcome (option User.t) :=
  data ← await UpdateUser client input;
  user ← await field data;
  match user with
  | None => Returns None
  | Some user => Returns (Some (user_of_json user))
  end.

Definition deleteUser (client : ApolloClient) (id : Z) : Outcome bool :=
  data ← await DeleteUser client id;
  deleted ← await field data;
  Returns deleted.

End GraphQLUserRepository.

(** ** The stores

    An action first marks the store as loading, awaits one call of the
    active repository, and then reconciles the list.  The repository is
    whichever adapter is active: the action is given the way its call
    ended.  [started] is the state while the call is pending. *)

(** [error instanceof Error ? error.message : fallback] *)
Definition errorMessage (error : Thrown) (fallback : string) : string :=
  match error with
  | ErrorObject message => message
  | OtherValue => fallback
  end.

Global Instance IdArg_eq_dec : EqDecision IdArg.
Proof. solve_decision. Defined.

Module TodoStore.

Record TodoState := {
  todos : list Todo.t;
  isLoading : bool;
  error : option string
}.

(** The initial state of the store. *)
Definition initial : TodoState :=
  {| todos := []; isLoading := false; error := None |}.

(** [set({ isLoading: true, error: null })] *)
Definition started (state : TodoState) : TodoState :=
  {| todos := todos state; isLoading := true; error := None |}.

(** [set({ error: ..., isLoading: false })] *)
Definition failed (error : Thrown) (fallback : string) (state : TodoState) : TodoState :=
  {| todos := todos state;
     isLoading := false;
     error := Some (errorMessage error fallback) |}.

Definition fetchTodos (result : Outcome (list Todo.t)) (state : TodoState) : TodoState :=
  let state := started state in
  match result with
  | Returns todos => {| todos := todos; isLoading := false; error := error state |}
  | Throws error => failed error "Error desconocido al cargar las tareas" state
  end.

Definition addTodo (result : Outcome Todo.t) (state : TodoState) : TodoState :=
  let state := started state in
  match result with
  | Returns newTodo =>
      {| todos := todos state ++ [newTodo]; isLoading := false; error := error state |}
  | Throws error => failed error "Error desconocido al crear la tarea" state
  end.

(** [state.todos.map(todo => todo.id === updatedTodo.id ? updatedTodo : todo)] *)
Definition replaceById (updatedTodo : Todo.t) (todos : list Todo.t) : list Todo.t :=
  (λ todo, if decide (Todo.id todo = Todo.id updatedTodo) then updatedTodo else todo)
    <$> todos.

Definition updateTodo (result : Outcome (option Todo.t)) (state : TodoState) : TodoState :=
  let state := started state in
  match result with
  | Returns (Some updatedTodo) =>
      {| todos := replaceById updatedTodo (todos state);
         isLoading := false;
         error := error state |}
  | Returns None => state
  | Throws error => failed error "Error desconocido al actualizar la tarea" state
  end.

(** The list is filtered with [todo.id !== id] on the argument as it
    was passed, a number or a string. *)
Definition deleteTodo (id : IdArg) (result : Outcome bool) (state : TodoState) : TodoState :=
  let state := started state in
  match result with
  | Returns true =>
      {| todos := filter (λ todo, IdNum (Todo.id todo) ≠ id) (todos state);
         isLoading := false;
         error := error state |}
  | Returns false => state
  | Throws error => failed error "Error desconocido al eliminar la tarea" state
  end.

Definition toggleTodoComplete (result : Outcome (option Todo.t)) (state : TodoState)
  : TodoState :=
  let state := started state in
  match result with
  | Returns (Some updatedTodo) =>
      {| todos := replaceById updatedTodo (todos state);
         isLoading := false;
         error := error state |}
  | Returns None => state
  | Throws error =>
      failed error "Error desconocido al cambiar el estado de la tarea" state
  end.

End TodoStore.

Module UserStore.

Record UserState := {
  users : list User.t;
  selectedUser : option User.t;
  isLoading : bool;
  error : option string
}.

Definition initial : UserState :=
  {| users := []; selectedUser := None; isLoading := false; error := None |}.

Definition started (state : UserState) : UserState :=
  {| users := users state;
     selectedUser := selectedUser state;
     isLoading := true;
     error := None |}.

Definition failed (error : Thrown) (fallback : string) (state : UserState) : UserState :=
  {| users := users state;
     selectedUser := selectedUser state;
     isLoading := false;
     error := Some (errorMessage error fallback) |}.

Definition fetchUsers (result : Outcome (list User.t)) (state : UserState) : UserState :=
  let state := started state in
  match result with
  | Returns users =>
      {| users := users;
         selectedUser := selectedUser state;
         isLoading := false;
         error := error state |}
  | Throws error => failed error "Error desconocido al cargar los usuarios" state
  end.

(** Each of the next actions also hands a value back to its caller, or
    rethrows. *)
Definition getUserById (result : Outcome (option User.t)) (state : UserState)
  : Outcome (option User.t) * UserState :=
  let state := started state in
  match result with
  | Returns user =>
      (Returns user,
       {| users := users state;
          selectedUser := selectedUser state;
          isLoading := false;
          error := error state |})
  | Throws error =>
      (Returns None, failed error "Error desconocido al obtener el usuario" state)
  end.

Definition addUser (result : Outcome User.t) (state : UserState)
  : Outcome User.t * UserState :=
  let state := started state in
  match result with
  | Returns newUser =>
      (Returns newUser,
       {| users := users state ++ [newUser];
          selectedUser := selectedUser state;
          isLoading := false;
          error := error state |})
  | Throws error =>
      (Throws error, failed error "Error desconocido al crear el usuario" state)
  end.

Definition replaceById (updatedUser : User.t) (users : list User.t) : list User.t :=
  (λ user, if decide (User.id user = User.id updatedUser) then updatedUser else user)
    <$> users.

Definition updateUser (result : Outcome (option User.t)) (state : UserState)
  : Outcome (option User.t) * UserState :=
  let state := started state in
  match result with
  | Returns (Some updatedUser) =>
      (Returns (Some updatedUser),
       {| users := replaceById updatedUser (users state);
          selectedUser :=
            match selectedUser state with
            | Some selected =>
                if decide (User.id selected = User.id updatedUser)
                then Some updatedUser else Some selected
            | None => None
            end;
          isLoading := false;
          error := error state |})
  | Returns None => (Returns None, state)
  | Throws error =>
      (Throws error, failed error "Error desconocido al actualizar el usuario" state)
  end.

Definition deleteUser (id : Z) (result : Outcome bool) (state : UserState) : UserState :=
  let state := started state in
  match result with
  | Returns true =>
      {| users := filter (λ user, User.id user ≠ id) (users state);
         selectedUser :=
           match selectedUser state with
           | Some selected =>
               if decide (User.id selected = id) then None else Some selected
           | None => None
           end;
         isLoading := false;
         error := error state |}
  | Returns false => state
  | Throws error => failed error "Error desconocido al eliminar el usuario" state
  end.

(** [selectUser(id)], [None] standing for [null]: a user already in the
    list is selected without asking the repository; otherwise the
    repository's [getUserById] decides. *)
Definition selectUser (id : option Z) (result : Outcome (option User.t))
    (state : UserState) : UserState :=
  match id with
  | None =>
      {| users := users state; selectedUser := None;
         isLoading := isLoading state; error := error state |}
  | Some id =>
      match find (λ user, User.id user = id) (users state) with
      | Some userInState =>
          {| users := users state; selectedUser := Some userInState;
             isLoading := isLoading state; error := error state |}
      | None =>
          let state := started state in
          match result with
          | Returns user =>
              {| users := users state; selectedUser := user;
                 isLoading := false; error := error state |}
          | Throws error =>
              failed error "Error desconocido al seleccionar el usuario" state
          end
      end
  end.

End UserStore.

(** ** Invariants of the simulated adapters *)

(** The ids are pairwise distinct and all below the counter. *)
Definition todo_ids_fresh (this : MockTodoRepository.t) : Prop :=
  NoDup (Todo.id <$> MockTodoRepository.todos this)
  ∧ Forall (λ todo, Todo.id todo < MockTodoRepository.nextId this)
      (MockTodoRepository.todos this).

Definition user_ids_fresh (this : MockUserRepository.t) : Prop :=
  NoDup (User.id <$> MockUserRepository.users this)
  ∧ Forall (λ user, User.id user < MockUserRepository.nextId this)
      (MockUserRepository.users this).

(** The storage mirrors the adapter: an adapter newly constructed over
    it, with no initial entities, holds the same collection. *)
Definition todos_in_sync (this : MockTodoRepository.t) (localStorage : Storage) : Prop :=
  MockTodoRepository.todos (MockTodoRepository.constructor [] localStorage).1
  = MockTodoRepository.todos this.

Definition users_in_sync (this : MockUserRepository.t) (localStorage : Storage) : Prop :=
  MockUserRepository.users (MockUserRepository.constructor [] localStorage).1
  = MockUserRepository.users this.

(** No task of the collection carries the Invalid Date: the condition
    under which [saveToLocalStorage] gets as far as writing. *)
Definition todo_dates_valid (this : MockTodoRepository.t) : Prop :=
  Forall (λ todo, MockTodoRepository.serializable todo = true)
    (MockTodoRepository.todos this).

(** No user of the list carries the Invalid Date. *)
Definition user_dates_valid (users : list User.t) : Prop :=
  Forall (λ user, valid_date (User.createdAt user) = true
                  ∧ from_option valid_date true (User.updatedAt user) = true) users.

(** ** Numerals inside longer strings *)

(** The text whose UTF-8 bytes are given. *)
Definition utf8 (bytes : list nat) : string :=
  foldr (λ byte text, String (ascii_of_nat byte) text) EmptyString bytes.

(** The white-space characters of the language, one by one: the six of
    ASCII, then U+00A0 (no-break space), U+1680, U+2000 to U+200A (the
    spaces of fixed width), U+2028 and U+2029 (line and paragraph
    separator), U+202F, U+205F, U+3000 and U+FEFF (byte order mark). *)
Definition StrWhiteSpaceChars : list string :=
  utf8 <$> [ [0x09]; [0x0A]; [0x0B]; [0x0C]; [0x0D]; [0x20];
             [0xC2; 0xA0];
             [0xE1; 0x9A; 0x80];
             [0xE2; 0x80; 0x80]; [0xE2; 0x80; 0x81]; [0xE2; 0x80; 0x82];
             [0xE2; 0x80; 0x83]; [0xE2; 0x80; 0x84]; [0xE2; 0x80; 0x85];
             [0xE2; 0x80; 0x86]; [0xE2; 0x80; 0x87]; [0xE2; 0x80; 0x88];
             [0xE2; 0x80; 0x89]; [0xE2; 0x80; 0x8A];
             [0xE2; 0x80; 0xA8]; [0xE2; 0x80; 0xA9];
             [0xE2; 0x80; 0xAF];
             [0xE2; 0x81; 0x9F];
             [0xE3; 0x80; 0x80];
             [0xEF; 0xBB; 0xBF] ]%nat.

(** A run of white-space characters, written out as one text. *)
Definition white_space (chars : list string) : string :=
  foldr String.append EmptyString chars.

(** Every character of the run is a white-space character. *)
Definition all_whitespace (chars : list string) : Prop :=
  Forall (λ char, char ∈ StrWhiteSpaceChars) chars.

(** What may follow a decimal numeral without being read as part of it:
    nothing, or a character that is neither a decimal digit nor the [x]
    of a hexadecimal prefix. *)
Definition ends_numeral (rest : string) : bool :=
  match rest with
  | EmptyString => true
  | String c _ =>
      negb (Ascii.eqb c "x") && negb (Ascii.eqb c "X")
      && match digit_value c with
         | Some v => 10 <=? v
         | None => true
         end
  end.

(** The text of an id where it is written into a request: the template
    literal of a REST path, or a GraphQL [ID] variable, which the service
    reads alike as a number or as its decimal text. *)
Definition id_text (id : IdArg) : string :=
  match id with
  | IdStr s => s
  | IdNum n => if n <? 0 then "-" +:+ decimal (Z.to_N (- n)) else decimal (Z.to_N n)
  end.

(** ** The task store with its repository

    The store keeps the active repository next to the list; an action
    calls the repository's method and hands the way the call ended to the
    reconciliation step of [TodoStore]. *)

Module TodoApp.

Inductive DataSource := graphql | mock.

(** The active repository: an instance of one of the two adapters. *)
Inductive Repository :=
  | GraphQL (client : GraphQLTodoRepository.ApolloClient)
  | Mock (this : MockTodoRepository.t).

(** [config?: any], of which [uri] and [initialTodos] are read. *)
Record Config := {
  uri : option string;
  initialTodos : option (list Todo.t)
}.

Record t := {
  state : TodoStore.TodoState;
  dataSource : DataSource;
  repository : Repository;
  localStorage : Storage
}.

(** [createRepository(source, config)]; [network] is the transport that
    answers at a given URI. *)
Definition createRepository (network : string → GraphQLTodoRepository.ApolloClient)
    (source : DataSource) (config : option Config) (localStorage : Storage)
  : Repository * Storage :=
  match source with
  | graphql =>
      (GraphQL (network (default "http://localhost:4000/graphql" (config ≫= uri))),
       localStorage)
  | mock =>
      let '(this, localStorage) :=
        MockTodoRepository.constructor (default [] (config ≫= initialTodos)) localStorage in
      (Mock this, localStorage)
  end.

(** The store as the module creates it. *)
Definition create (network : string → GraphQLTodoRepository.ApolloClient)
    (localStorage : Storage) : t :=
  let '(repository, localStorage) := createRepository network mock None localStorage in
  {| state := TodoStore.initial; dataSource := mock;
     repository := repository; localStorage := localStorage |}.

Definition fetchTodos (app : t) : t :=
  let result :=
    match repository app with
    | GraphQL client => GraphQLTodoRepository.getTodos client
    | Mock this => Returns (MockTodoRepository.getTodos this)
    end in
  {| state := TodoStore.fetchTodos result (state app);
     dataSource := dataSource app;
     repository := repository app;
     localStorage := localStorage app |}.

Definition changeDataSource (network : string → GraphQLTodoRepository.ApolloClient)
    (source : DataSource) (config : option Config) (app : t) : t :=
  let '(repository, localStorage) :=
    createRepository network source config (localStorage app) in
  fetchTodos {| state := state app; dataSource := source;
                repository := repository; localStorage := localStorage |}.

Definition addTodo (now : Date) (input : CreateTodoInput) (app : t) : t :=
  match repository app with
  | GraphQL client =>
      {| state := TodoStore.addTodo (GraphQLTodoRepository.createTodo client input) (state app);
         dataSource := dataSource app;
         repository := repository app;
         localStorage := localStorage app |}
  | Mock this =>
      let '(newTodo, this, localStorage) :=
        MockTodoRepository.createTodo now input this (localStorage app) in
      {| state := TodoStore.addTodo (Returns newTodo) (state app);
         dataSource := dataSource app;
         repository := Mock this;
         localStorage := localStorage |}
  end.

Definition updateTodo (now : Date) (input : UpdateTodoInput) (app : t) : t :=
  match repository app with
  | GraphQL client =>
      {| state := TodoStore.updateTodo (GraphQLTodoRepository.updateTodo client input)
                    (state app);
         dataSource := dataSource app;
         repository := repository app;
         localStorage := localStorage app |}
  | Mock this =>
      let '(updatedTodo, this, localStorage) :=
        MockTodoRepository.updateTodo now input this (localStorage app) in
      {| state := TodoStore.updateTodo (Returns updatedTodo) (state app);
         dataSource := dataSource app;
         repository := Mock this;
         localStorage := localStorage |}
  end.

Definition deleteTodo (id : IdArg) (app : t) : t :=
  match repository app with
  | GraphQL client =>
      {| state := TodoStore.deleteTodo id (GraphQLTodoRepository.deleteTodo client (id_text id))
                    (state app);
         dataSource := dataSource app;
         repository := repository app;
         localStorage := localStorage app |}
  | Mock this =>
      let '(success, this, localStorage) :=
        MockTodoRepository.deleteTodo id this (localStorage app) in
      {| state := TodoStore.deleteTodo id (Returns success) (state app);
         dataSource := dataSource app;
         repository := Mock this;
         localStorage := localStorage |}
  end.

Definition toggleTodoComplete (now : Date) (id : IdArg) (app : t) : t :=
  match repository app with
  | GraphQL client =>
      {| state := TodoStore.toggleTodoComplete
                    (GraphQLTodoRepository.toggleComplete client (id_text id)) (state app);
         dataSource := dataSource app;
         repository := repository app;
         localStorage := localStorage app |}
  | Mock this =>
      let '(updatedTodo, this, localStorage) :=
        MockTodoRepository.toggleComplete now id this (localStorage app) in
      {| state := TodoStore.toggleTodoComplete (Returns updatedTodo) (state app);
         dataSource := dataSource app;
         repository := Mock this;
         localStorage := localStorage |}
  end.

(** The list on screen is the collection of the simulated adapter. *)
Definition mirrors (app : t) : Prop :=
  match repository app with
  | GraphQL _ => True
  | Mock this => TodoStore.todos (state app) = MockTodoRepository.todos this
  end.

End TodoApp.

(** The selected user, if any, is one of the listed users. *)
Definition selection_listed (state : UserStore.UserState) : Prop :=
  ∀ user, UserStore.selectedUser state = Some user → user ∈ UserStore.users state.

(** ** The two simulated adapters filled together

    The two adapter calls made by the "fill with sample data" button, in
    their order; [now] is the clock reading of the user seeds. *)
Definition Browser_fillWithSampleData (dates : SeedDates) (now : Date) (b : Browser)
  : Browser :=
  let '(todos, storage) :=
    MockTodoRepository.fillWithSampleData dates (todoRepository b) (localStorage b) in
  let '(users, storage) :=
    MockUserRepository.fillWithSampleData now (userRepository b) storage in
  {| userRepository := users; todoRepository := todos; localStorage := storage |}.

(** Every task names an owner, and the owner is one of the users. *)
Definition owners_exist (b : Browser) : Prop :=
  Forall (λ todo, ∃ user, user ∈ MockUserRepository.users (userRepository b)
                          ∧ Todo.userId todo = Some (User.id user))
    (MockTodoRepository.todos (todoRepository b)).

(** ** The REST adapters *)

(** What an axios call rejects with: an axios error, with the status of
    its response when there is one, or some other thrown value. *)
Inductive AxiosFailure :=
  | AxiosError (status : option Z) (message : string)
  | OtherFailure (error : Thrown).

Inductive AxiosResponse (A : Type) :=
  | Resolved (data : A)
  | Rejected (failure : AxiosFailure).
Arguments Resolved {A} data.
Arguments Rejected {A} failure.

(** The value a [throw error] hands to the caller. *)
Definition rethrown (failure : AxiosFailure) : Thrown :=
  match failure with
  | AxiosError _ message => ErrorObject message
  | OtherFailure error => error
  end.

(** [axios.isAxiosError(error) && error.response?.status === 404] *)
Definition is404 (failure : AxiosFailure) : bool :=
  match failure with
  | AxiosError (Some status) _ => status =? 404
  | _ => false
  end.

Definition axios_bind {A B} (m : AxiosResponse A) (k : A → AxiosResponse B)
  : AxiosResponse B :=
  match m with
  | Resolved a => k a
  | Rejected failure => Rejected failure
  end.

(** Reading a property of [data]: a [TypeError] when [data] is [null]. *)
Definition axios_field {A} (data : option A) : AxiosResponse A :=
  match data with
  | Some a => Resolved a
  | None => Rejected (OtherFailure (ErrorObject "Cannot read properties of null"))
  end.

(** A method body with no [try] around it. *)
Definition uncaught {A} (body : AxiosResponse A) : Outcome A :=
  match body with
  | Resolved a => Returns a
  | Rejected failure => Throws (rethrown failure)
  end.

Definition try_axios {A} (body : AxiosResponse A) (handler : AxiosFailure → Outcome A)
  : Outcome A :=
  match body with
  | Resolved a => Returns a
  | Rejected failure => handler failure
  end.

Module RestUserRepository.

Record AxiosInstance := {
  get_users : AxiosResponse (option (list UserJson));
  get_user : Z → AxiosResponse (option UserJson);
  post_user : CreateUserInput → AxiosResponse (option UserJson);
  patch_user : Z → UpdateUserInput → AxiosResponse (option UserJson);
  delete_user : Z → AxiosResponse unit
}.

(** [if (axios.isAxiosError(error) && error.response?.status === 404)
      return notFound; throw error] *)
Definition on404 {A} (notFound : A) (error : AxiosFailure) : Outcome A :=
  if is404 error then Returns notFound else Throws (rethrown error).

Definition getUsers (client : AxiosInstance) : Outcome (list User.t) :=
  uncaught
    (axios_bind (get_users client) (λ data,
     axios_bind (axios_field data) (λ users,
     Resolved (user_of_json <$> users)))).

Definition getUserById (client : AxiosInstance) (id : Z) : Outcome (option User.t) :=
  try_axios
    (axios_bind (get_user client id) (λ data,
     axios_bind (axios_field data) (λ user,
     Resolved (Some (user_of_json user)))))
    (on404 None).

Definition createUser (client : AxiosInstance) (input : CreateUserInput) : Outcome User.t :=
  uncaught
    (axios_bind (post_user client input) (λ data,
     axios_bind (axios_field data) (λ user,
     Resolved (user_of_json user)))).

Definition updateUser (client : AxiosInstance) (input : UpdateUserInput)
  : Outcome (option User.t) :=
  try_axios
    (axios_bind (patch_user client (uui_id input) input) (λ data,
     axios_bind (axios_field data) (λ user,
     Resolved (Some (user_of_json user)))))
    (on404 None).

Definition deleteUser (client : AxiosInstance) (id : Z) : Outcome bool :=
  try_axios
    (axios_bind (delete_user client id) (λ _, Resolved true))
    (on404 false).

End RestUserRepository.

Module RestTodoRepository.

(** The body of a PATCH: the whole update input, or the one flag that
    [toggleComplete] sends. *)
Inductive PatchBody :=
  | PatchInput (input : UpdateTodoInput)
  | PatchCompleted (completed : bool).

(** The requests are told apart by the text of their path. *)
Record AxiosInstance := {
  get_todos : AxiosResponse (option (list TodoJson));
  get_todo : string → AxiosResponse (option TodoJson);
  post_todo : CreateTodoInput → AxiosResponse (option TodoJson);
  patch_todo : string → PatchBody → AxiosResponse (option TodoJson);
  delete_todo : string → AxiosResponse unit
}.

Definition getTodos (client : AxiosInstance) : Outcome (list Todo.t) :=
  try_axios
    (axios_bind (get_todos client) (λ data,
     axios_bind (axios_field data) (λ todos,
     Resolved (todo_of_json <$> todos))))
    (λ error, Returns []).

Definition getTodoById (client : AxiosInstance) (id : IdArg) : Outcome (option Todo.t) :=
  try_axios
    (axios_bind (get_todo client (id_text id)) (λ data,
     match data with
     | None => Resolved None
     | Some todo => Resolved (Some (todo_of_json todo))
     end))
    (λ error, Returns None).

Definition createTodo (client : AxiosInstance) (input : CreateTodoInput) : Outcome Todo.t :=
  uncaught
    (axios_bind (post_todo client input) (λ data,
     axios_bind (axios_field data) (λ todo,
     Resolved (todo_of_json todo)))).

Definition updateTodo (client : AxiosInstance) (input : UpdateTodoInput)
  : Outcome (option Todo.t) :=
  try_axios
    (axios_bind (patch_todo client (id_text (IdNum (uti_id input))) (PatchInput input))
       (λ data,
        match data with
        | None => Resolved None
        | Some todo => Resolved (Some (todo_of_json todo))
        end))
    (λ error, Returns None).

Definition deleteTodo (client : AxiosInstance) (id : IdArg) : Outcome bool :=
  try_axios
    (axios_bind (delete_todo client (id_text id)) (λ _, Resolved true))
    (λ error, Returns false).

(** Reads the task, then patches the negation of its flag; the task
    returned is the one the PATCH answers with. *)
Definition toggleComplete (client : AxiosInstance) (id : IdArg) : Outcome (option Todo.t) :=
  try_catch
    (todo ← await getTodoById client id;
     match todo with
     | None => Returns None
     | Some todo =>
         uncaught
           (axios_bind
              (patch_todo client (id_text id) (PatchCompleted (negb (Todo.completed todo))))
              (λ data,
               axios_bind (axios_field data) (λ patched,
               Resolved (Some (todo_of_json patched)))))
     end)
    (λ error, Returns None).

End RestTodoRepository.

(** What a store shows after an action whose repository call ended with
    [result]: a message and an idle store when the call threw, no message
    when it returned. *)
Definition reports {A} (result : Outcome A) (error : option string) (isLoading : bool)
  : Prop :=
  match result with
  | Throws _ => is_Some error ∧ isLoading = false
  | Returns _ => error = None
  end.

(** ** Sample data *)

(** Sample entities for the concrete runs. *)
Definition report : Todo.t :=
  {| Todo.id := 1; Todo.title := "Write report"%string; Todo.completed := false;
     Todo.userId := Some 1; Todo.createdAt := 1000; Todo.updatedAt := None |}.

Definition groceries : Todo.t :=
  {| Todo.id := 2; Todo.title := "Buy groceries"%string; Todo.completed := true;
     Todo.userId := Some 2; Todo.createdAt := 2000; Todo.updatedAt := Some 2500 |}.

Definition ana : User.t :=
  {| User.id := 1; User.name := "Ana"%string; User.email := "ana@example.com"%string;
     User.createdAt := 500; User.updatedAt := None |}.

Definition luis : User.t :=
  {| User.id := 2; User.name := "Luis"%string; User.email := "luis@example.com"%string;
     User.createdAt := 600; User.updatedAt := None |}.

Definition sampleTodos : MockTodoRepository.t :=
  {| MockTodoRepository.todos := [report; groceries]; MockTodoRepository.nextId := 3 |}.

Definition sampleUsers : MockUserRepository.t :=
  {| MockUserRepository.users := [ana; luis]; MockUserRepository.nextId := 3 |}.

(** A [localStorage] left behind by an earlier session. *)
Definition persisted : Storage :=
  {[ MockTodoRepository.LOCAL_STORAGE_KEY := TodoArray (todo_to_json <$> [report; groceries]);
     MockUserRepository.LOCAL_STORAGE_KEY := UserArray (user_to_json <$> [ana; luis]) ]}.

(** A transport with no network: every request is rejected. *)
Definition networkError : Thrown := ErrorObject "Network error".

Definition offlineTodos : GraphQLTodoRepository.ApolloClient :=
  {| GraphQLTodoRepository.GET_TODOS := Throws networkError;
     GraphQLTodoRepository.GET_TODO_BY_ID := λ _, Throws networkError;
     GraphQLTodoRepository.CREATE_TODO := λ _, Throws networkError;
     GraphQLTodoRepository.UPDATE_TODO := λ _, Throws networkError;
     GraphQLTodoRepository.DELETE_TODO := λ _, Throws networkError;
     GraphQLTodoRepository.TOGGLE_COMPLETE := λ _, Throws networkError |}.

Definition offlineUsers : GraphQLUserRepository.ApolloClient :=
  {| GraphQLUserRepository.GetUsers := Throws networkError;
     GraphQLUserRepository.GetUser := λ _, Throws networkError;
     GraphQLUserRepository.CreateUser := λ _, Throws networkError;
     GraphQLUserRepository.UpdateUser := λ _, Throws networkError;
     GraphQLUserRepository.DeleteUser := λ _, Throws networkError |}.

(** An update that names no stored entity. *)
Definition unknownTodo : UpdateTodoInput :=
  {| uti_id := 7; uti_title := Some "Nothing"%string;
     uti_completed := None; uti_userId := None |}.

Definition unknownUser : UpdateUserInput :=
  {| uui_id := 7; uui_name := Some "Nobody"%string; uui_email := None |}.

(** The task store showing the two sample tasks of the simulated adapter. *)
Definition sampleApp : TodoApp.t :=
  {| TodoApp.state :=
       {| TodoStore.todos := [report; groceries];
          TodoStore.isLoading := false;
          TodoStore.error := None |};
     TodoApp.dataSource := TodoApp.mock;
     TodoApp.repository := TodoApp.Mock sampleTodos;
     TodoApp.localStorage := persisted |}.

(** The same store switched to a GraphQL service that cannot be reached. *)
Definition offlineApp : TodoApp.t :=
  {| TodoApp.state :=
       {| TodoStore.todos := [report; groceries];
          TodoStore.isLoading := false;
          TodoStore.error := None |};
     TodoApp.dataSource := TodoApp.graphql;
     TodoApp.repository := TodoApp.GraphQL offlineTodos;
     TodoApp.localStorage := persisted |}.

(** The user store listing the two sample users, Luis selected. *)
Definition sampleUserState : UserStore.UserState :=
  {| UserStore.users := [ana; luis];
     UserStore.selectedUser := Some luis;
     UserStore.isLoading := false;
     UserStore.error := None |}.

(** A REST service that answers 404 to reads and writes of a user and
    fails with status 500 on deletion. *)
Definition missingUserService : RestUserRepository.AxiosInstance :=
  {| RestUserRepository.get_users := Resolved (Some []);
     RestUserRepository.get_user := λ _, Rejected (AxiosError (Some 404) "Not Found");
     RestUserRepository.post_user := λ _, Rejected (AxiosError None "Network Error");
     RestUserRepository.patch_user := λ _ _, Rejected (AxiosError (Some 404) "Not Found");
     RestUserRepository.delete_user :=
       λ _, Rejected (AxiosError (Some 500) "Internal Server Error") |}.

(** The two simulated adapters of one tab, holding the sample entities. *)
Definition sampleBrowser : Browser :=
  {| userRepository := sampleUsers;
     todoRepository := sampleTodos;
     localStorage := persisted |}.

Definition sampleDates : SeedDates :=
  {| sd_now := 3000; sd_yesterday := 2000; sd_lastWeek := 1000; sd_lastMonth := 0;
     sd_valid := eq_refl |}.

(** A task whose [createdAt] is [new Date(8640000000000001)], the
    Invalid Date. *)
Definition undated : Todo.t :=
  {| Todo.id := 1; Todo.title := "Renew passport"%string; Todo.completed := false;
     Todo.userId := None; Todo.createdAt := 8640000000000001; Todo.updatedAt := None |}.

(** * Properties *)

(** ** parseInt on decimal numerals *)

Section ParseInt.

Import NilEmpty.

(** One step of the digit loop on a character that is a decimal digit. *)
Lemma parse_digits_step (c : ascii) (v : Z) (acc : option Z) (s : string) :
  digit_value c = Some v → v < 10 →
  parse_digits 10 acc (String c s)
  = parse_digits 10 (Some (default 0 acc * 10 + v)) s.
Proof.
  intros Hc Hv. cbn [parse_digits]. rewrite Hc.
  destruct (Z.ltb_spec v 10); [reflexivity | lia].
Qed.

Ltac digit_step :=
  erewrite parse_digits_step; [ | vm_compute; reflexivity | lia ].

Lemma parse_digits_acc (d : Decimal.uint) (acc : positive) :
  parse_digits 10 (Some (Z.pos acc)) (string_of_uint d)
  = Some (Z.pos (Pos.of_uint_acc d acc)).
Proof.
  revert acc.
  induction d as [|d IH|d IH|d IH|d IH|d IH|d IH|d IH|d IH|d IH|d IH];
    intros acc; [reflexivity | ..];
    cbn [string_of_uint Pos.of_uint_acc]; digit_step;
    rewrite <- IH; do 2 f_equal; cbn [from_option id]; lia.
Qed.

Lemma parse_digits_zero (d : Decimal.uint) :
  parse_digits 10 (Some 0) (string_of_uint d) = Some (Z.of_N (Pos.of_uint d)).
Proof.
  induction d as [|d IH|d IH|d IH|d IH|d IH|d IH|d IH|d IH|d IH|d IH];
    [reflexivity | ..];
    cbn [string_of_uint Pos.of_uint]; digit_step; cbn [from_option id];
    first [ exact IH | apply parse_digits_acc ].
Qed.

Lemma parse_digits_uint (d : Decimal.uint) :
  d ≠ Decimal.Nil →
  parse_digits 10 None (string_of_uint d) = Some (Z.of_N (Pos.of_uint d)).
Proof.
  intros Hd. destruct d; [done | ..];
    cbn [string_of_uint Pos.of_uint]; digit_step; cbn [from_option id];
    first [ apply parse_digits_zero | apply parse_digits_acc ].
Qed.

(** An ASCII character that is not white space stops [trimStart]. *)
Lemma trimStart_ascii (c : ascii) (s : string) :
  Z.of_nat (nat_of_ascii c) < 128 → is_StrWhiteSpaceChar c = false →
  trimStart (String c s) = String c s.
Proof.
  intros Hc Hws. cbn [trimStart]. rewrite Hws.
  destruct s as [|c2 [|c3 s3]]; [done|..];
    unfold is_StrWhiteSpaceChar2, is_StrWhiteSpaceChar3; cbn zeta;
    repeat match goal with
    | |- context [Z.of_nat (nat_of_ascii c) =? ?b] =>
        replace (Z.of_nat (nat_of_ascii c) =? b) with false
          by (symmetry; apply Z.eqb_neq; lia)
    end; reflexivity.
Qed.

(** The numeral of [d] has no white space, sign or [0x] in front. *)
Lemma trimStart_uint (d : Decimal.uint) :
  trimStart (string_of_uint d) = string_of_uint d.
Proof.
  destruct d; [reflexivity|..]; cbn [string_of_uint];
    (apply trimStart_ascii; [vm_compute|]; reflexivity).
Qed.

Lemma strip_sign_uint (d : Decimal.uint) :
  strip_sign (string_of_uint d) = (1, string_of_uint d).
Proof. destruct d; reflexivity. Qed.

Lemma strip_prefix_uint (d : Decimal.uint) :
  strip_prefix (string_of_uint d) = (10, string_of_uint d).
Proof. destruct d as [|d|d|d|d|d|d|d|d|d|d]; try reflexivity. destruct d; reflexivity. Qed.

Lemma parseInt_uint (d : Decimal.uint) :
  d ≠ Decimal.Nil →
  parseInt (string_of_uint d) = Int (Z.of_N (N.of_uint d)).
Proof.
  intros Hd. unfold parseInt.
  rewrite trimStart_uint, strip_sign_uint, strip_prefix_uint, parse_digits_uint by done.
  unfold N.of_uint. f_equal. lia.
Qed.

Lemma to_uint_not_Nil (n : N) : N.to_uint n ≠ Decimal.Nil.
Proof.
  intros H. destruct n as [|p]; [discriminate|].
  apply (f_equal N.of_uint) in H. rewrite DecimalN.Unsigned.of_to in H. discriminate.
Qed.

Lemma parseInt_decimal (n : N) : parseInt (decimal n) = Int (Z.of_N n).
Proof.
  unfold decimal. rewrite parseInt_uint by apply to_uint_not_Nil.
  by rewrite DecimalN.Unsigned.of_to.
Qed.

End ParseInt.

(** ** Arrays: search, in-place update and filtering *)

Section Arrays.
Context {A : Type} (P : A → Prop) `{∀ x, Decision (P x)}.

Lemma filter_all (l : list A) : Forall P l → filter P l = l.
Proof.
  induction 1 as [|x l Hx _ IH]; [reflexivity|].
  by rewrite filter_cons_True, IH.
Qed.

(** Overwriting the found slot with an element that still satisfies the
    predicate leaves it the first match. *)
Lemma list_find_insert_same (l : list A) (i : nat) (x y : A) :
  list_find P l = Some (i, x) → P y →
  list_find P (<[i := y]> l) = Some (i, y).
Proof.
  intros (Hi & _ & Hleast)%list_find_Some Hy.
  apply list_find_Some. split_and!; [|done|].
  - apply list_lookup_insert_eq. by eapply lookup_lt_Some.
  - intros j z Hj Hlt. rewrite list_lookup_insert_ne in Hj by lia. eauto.
Qed.

(** Filtering out the one element that carries a key no other element
    shares shortens the array by exactly one. *)
Lemma length_filter_key (key : A → Z) (k : Z) (l : list A) :
  (∀ y, P y ↔ key y ≠ k) →
  NoDup (key <$> l) → k ∈ key <$> l →
  S (length (filter P l)) = length l.
Proof.
  intros HP. induction l as [|x l IH]; cbn [fmap list_fmap].
  - intros _ Hk. by apply elem_of_nil in Hk.
  - intros [Hx Hnd]%NoDup_cons Hk. destruct (decide (key x = k)) as [Hkx|Hne].
    + rewrite filter_cons_False by (rewrite HP; tauto).
      rewrite filter_all; [done|].
      apply Forall_forall. intros y Hy. apply HP. intros Heq.
      apply Hx. rewrite Hkx, <- Heq. by apply list_elem_of_fmap_2.
    + rewrite filter_cons_True by by apply HP.
      cbn [length]. f_equal. apply IH; [done|].
      apply elem_of_cons in Hk as [Hk|Hk]; [congruence | done].
Qed.

(** With unique keys, the first element found under a key is the only
    element carrying it. *)
Lemma list_find_key (key : A → Z) (k : Z) (l : list A) (x : A) :
  (∀ y, P y ↔ key y = k) →
  NoDup (key <$> l) → x ∈ l → key x = k →
  ∃ i, list_find P l = Some (i, x).
Proof.
  intros HP Hnd Hx Hk.
  destruct (list_find_elem_of P l x) as [[i z] Hfind]; [done | by apply HP |].
  exists i. rewrite Hfind. do 2 f_equal.
  apply list_find_Some in Hfind as (Hi & Hz%HP & _).
  apply list_elem_of_lookup_1 in Hx as [j Hj].
  assert (i = j) as ->; [|congruence].
  apply (NoDup_lookup (key <$> l) i j k); [done|..];
    rewrite list_lookup_fmap; [rewrite Hi | rewrite Hj]; cbn; congruence.
Qed.

End Arrays.

(** ** The simulated task adapter *)

Module MockTodoFacts.
Import MockTodoRepository.

(** What is read back from the slot is what was written to it. *)
Lemma todo_json_roundtrip (todo : Todo.t) : todo_of_json (todo_to_json todo) = todo.
Proof. destruct todo as [? ? ? ? ? [?|]]; reflexivity. Qed.

Lemma load_after_save (this other : t) (localStorage : Storage) :
  forallb serializable (todos this) = true →
  loadFromLocalStorage other (saveToLocalStorage this localStorage)
  = {| todos := todos this; nextId := nextId other |}.
Proof.
  intros Hdates. unfold loadFromLocalStorage, saveToLocalStorage.
  rewrite Hdates, lookup_insert_eq. f_equal.
  rewrite <- list_fmap_compose. rewrite <- (list_fmap_id (todos this)) at 2.
  apply list_fmap_ext. intros _ todo _. apply todo_json_roundtrip.
Qed.

(** The constructor never moves the counter. *)
Lemma constructor_nextId (initialTodos : list Todo.t) (localStorage : Storage) :
  nextId (constructor initialTodos localStorage).1 = 1.
Proof.
  unfold constructor, loadFromLocalStorage.
  destruct (localStorage !! LOCAL_STORAGE_KEY) as [[]|]; cbn;
    repeat case_match; reflexivity.
Qed.

Lemma updateTodo_unknown (now : Date) (input : UpdateTodoInput)
    (this : t) (localStorage : Storage) :
  Forall (λ todo, Todo.id todo ≠ uti_id input) (todos this) →
  updateTodo now input this localStorage = (None, this, localStorage).
Proof.
  intros Hnone. unfold updateTodo.
  by rewrite (proj2 (list_find_None _ _) Hnone).
Qed.

Lemma deleteTodo_unknown (id : IdArg) (this : t) (localStorage : Storage) :
  Forall (λ todo, Int (Todo.id todo) ≠ numericId id) (todos this) →
  deleteTodo id this localStorage = (false, this, localStorage).
Proof.
  intros Hnone. unfold deleteTodo. cbn [todos nextId].
  rewrite filter_all by done. rewrite Nat.eqb_refl. by destruct this.
Qed.

Lemma deleteTodo_known (id : Z) (this : t) (localStorage : Storage) :
  NoDup (Todo.id <$> todos this) → id ∈ Todo.id <$> todos this →
  (deleteTodo (IdNum id) this localStorage).1.1 = true
  ∧ S (length (todos (deleteTodo (IdNum id) this localStorage).1.2))
    = length (todos this).
Proof.
  intros Hnd Hin. unfold deleteTodo. cbn [todos nextId numericId fst snd].
  assert (Hlen : S (length (filter (λ todo, Int (Todo.id todo) ≠ Int id) (todos this)))
                 = length (todos this)).
  { apply (length_filter_key _ Todo.id id); [|done..].
    intros y. split; [congruence|]. intros Hne [= Heq]. done. }
  split; [|done]. apply negb_true_iff, Nat.eqb_neq. lia.
Qed.

Lemma deleteTodo_todos (id : IdArg) (this : t) (localStorage : Storage) (todo : Todo.t) :
  todo ∈ todos (deleteTodo id this localStorage).1.2
  ↔ todo ∈ todos this ∧ Int (Todo.id todo) ≠ numericId id.
Proof. unfold deleteTodo. cbn. rewrite list_elem_of_filter. tauto. Qed.

Lemma updateTodo_found (now : Date) (input : UpdateTodoInput)
    (this : t) (localStorage : Storage) (index : nat) (old : Todo.t) :
  list_find (λ todo, Todo.id todo = uti_id input) (todos this) = Some (index, old) →
  let this' := {| todos := <[index := patch now input old]> (todos this);
                  nextId := nextId this |} in
  updateTodo now input this localStorage
  = (Some (patch now input old), this', saveToLocalStorage this' localStorage).
Proof. intros Hfind. unfold updateTodo. by rewrite Hfind. Qed.

Lemma toggleComplete_found (now : Date) (id : IdArg)
    (this : t) (localStorage : Storage) (index : nat) (old : Todo.t) :
  list_find (λ todo, Int (Todo.id todo) = numericId id) (todos this) = Some (index, old) →
  let this' := {| todos := <[index := toggled now old]> (todos this);
                  nextId := nextId this |} in
  toggleComplete now id this localStorage
  = (Some (toggled now old), this', saveToLocalStorage this' localStorage).
Proof. intros Hfind. unfold toggleComplete. by rewrite Hfind. Qed.

(** One toggle: the task found under the id is replaced, in its slot,
    by its toggled copy, which is what a later lookup finds. *)
Lemma toggleComplete_getTodoById (now : Date) (id : IdArg)
    (this : t) (localStorage : Storage) (old : Todo.t) :
  getTodoById id this = Some old →
  ∃ this' localStorage',
    toggleComplete now id this localStorage
    = (Some (toggled now old), this', localStorage')
    ∧ getTodoById id this' = Some (toggled now old).
Proof.
  unfold getTodoById, find.
  destruct (list_find _ (todos this)) as [[index old']|] eqn:Hfind; [|done].
  intros [= ->]. eexists _, _. split.
  - by apply toggleComplete_found.
  - cbn [todos]. erewrite list_find_insert_same; [done..|].
    by apply list_find_Some in Hfind as (_ & Hid & _).
Qed.

(** The ids handed out by a run of creations count up from the counter. *)
Lemma createTodos_ids (calls : list (Date * CreateTodoInput))
    (this : t) (localStorage : Storage) :
  Todo.id <$> (createTodos calls this localStorage).1.1
  = (λ i, nextId this + Z.of_nat i) <$> seq 0 (length calls).
Proof.
  revert this localStorage.
  induction calls as [|[now input] calls IH]; intros this localStorage; [done|].
  cbn [createTodos createTodo].
  match goal with
  | |- context [createTodos calls ?r ?s] =>
      specialize (IH r s); destruct (createTodos calls r s) as [[rest this'] ls']
  end.
  cbn [fst snd fmap list_fmap length seq Todo.id nextId] in *.
  f_equal; [lia|].
  rewrite IH, <- fmap_S_seq, <- list_fmap_compose.
  apply list_fmap_ext. intros _ i _. cbn. lia.
Qed.

Lemma createTodos_dates (calls : list (Date * CreateTodoInput))
    (this : t) (localStorage : Storage) :
  Forall2 (λ call todo, Todo.createdAt todo = call.1 ∧ Todo.updatedAt todo = None)
    calls (createTodos calls this localStorage).1.1.
Proof.
  revert this localStorage.
  induction calls as [|[now input] calls IH]; intros this localStorage;
    [constructor|].
  cbn [createTodos createTodo].
  match goal with
  | |- context [createTodos calls ?r ?s] =>
      specialize (IH r s); destruct (createTodos calls r s) as [[rest this'] ls']
  end.
  constructor; [done | exact IH].
Qed.

End MockTodoFacts.

(** ** The simulated user adapter *)

Module MockUserFacts.
Import MockUserRepository.

Lemma Math_max_upper (xs : list Z) (m : Z) :
  Math_max xs = Some m → Forall (λ x, x ≤ m) xs.
Proof.
  revert m. induction xs as [|x xs IH]; intros m; [constructor|].
  cbn [Math_max]. destruct (Math_max xs) as [m'|] eqn:Hmax; intros [= <-].
  - constructor; [lia|].
    eapply Forall_impl; [by apply IH|]. cbn. lia.
  - constructor; [lia|]. destruct xs; [constructor | discriminate].
Qed.

Lemma user_json_id (user : UserJson) : User.id (user_of_json user) = uj_id user.
Proof. reflexivity. Qed.

(** Reloading a slot that holds users leaves the counter above every
    stored id. *)
Lemma constructor_reload (initialUsers : list User.t) (localStorage : Storage)
    (stored : list UserJson) :
  localStorage !! LOCAL_STORAGE_KEY = Some (UserArray stored) →
  stored ≠ [] →
  users (constructor initialUsers localStorage).1 = user_of_json <$> stored
  ∧ Forall (λ user, uj_id user < nextId (constructor initialUsers localStorage).1) stored.
Proof.
  intros Hslot Hne. unfold constructor, loadFromLocalStorage. rewrite Hslot.
  destruct stored as [|u stored]; [done|].
  destruct (Math_max (User.id <$> (user_of_json <$> u :: stored))) as [maxId|] eqn:Hmax;
    [|discriminate].
  cbn [fmap list_fmap length Nat.ltb Nat.leb users Nat.eqb fst nextId].
  split; [done|].
  apply Math_max_upper in Hmax. rewrite !Forall_fmap in Hmax.
  eapply Forall_impl; [exact Hmax|].
  intros user Huser. cbn in Huser. lia.
Qed.

(** A constructor that ends with no user has its counter at 1. *)
Lemma constructor_empty_nextId (initialUsers : list User.t) (localStorage : Storage) :
  users (constructor initialUsers localStorage).1 = [] →
  nextId (constructor initialUsers localStorage).1 = 1.
Proof.
  unfold constructor, loadFromLocalStorage.
  destruct (localStorage !! LOCAL_STORAGE_KEY) as [[| |stored]|]; cbn;
    try (destruct initialUsers; cbn; done).
  destruct stored as [|u stored]; cbn; [by destruct initialUsers | done].
Qed.

Lemma updateUser_unknown (now : Date) (input : UpdateUserInput)
    (this : t) (localStorage : Storage) :
  Forall (λ user, User.id user ≠ uui_id input) (users this) →
  updateUser now input this localStorage = (None, this, localStorage).
Proof.
  intros Hnone. unfold updateUser.
  by rewrite (proj2 (list_find_None _ _) Hnone).
Qed.

Lemma deleteUser_unknown (id : Z) (this : t) (localStorage : Storage) :
  Forall (λ user, User.id user ≠ id) (users this) →
  deleteUser id this localStorage = (false, this, localStorage).
Proof.
  intros Hnone. unfold deleteUser. cbn [users nextId].
  rewrite filter_all by done. rewrite Nat.ltb_irrefl. by destruct this.
Qed.

Lemma deleteUser_known (id : Z) (this : t) (localStorage : Storage) :
  NoDup (User.id <$> users this) → id ∈ User.id <$> users this →
  (deleteUser id this localStorage).1.1 = true
  ∧ S (length (users (deleteUser id this localStorage).1.2)) = length (users this).
Proof.
  intros Hnd Hin. unfold deleteUser. cbn [users nextId fst snd].
  assert (Hlen : S (length (filter (λ user, User.id user ≠ id) (users this)))
                 = length (users this)).
  { by apply (length_filter_key _ User.id id). }
  split; [|done]. apply Nat.ltb_lt. lia.
Qed.

Lemma deleteUser_users (id : Z) (this : t) (localStorage : Storage) (user : User.t) :
  user ∈ users (deleteUser id this localStorage).1.2
  ↔ user ∈ users this ∧ User.id user ≠ id.
Proof. unfold deleteUser. cbn. rewrite list_elem_of_filter. tauto. Qed.

(** Whatever [deleteUser] writes, it writes under its own key. *)
Lemma deleteUser_storage (id : Z) (this : t) (localStorage : Storage) (key : string) :
  key ≠ LOCAL_STORAGE_KEY →
  (deleteUser id this localStorage).2 !! key = localStorage !! key.
Proof.
  intros Hkey. unfold deleteUser. cbn [snd].
  case_match; [|done]. unfold saveToLocalStorage. by rewrite lookup_insert_ne.
Qed.

Lemma createUsers_ids (calls : list (Date * CreateUserInput))
    (this : t) (localStorage : Storage) :
  User.id <$> (createUsers calls this localStorage).1.1
  = (λ i, nextId this + Z.of_nat i) <$> seq 0 (length calls).
Proof.
  revert this localStorage.
  induction calls as [|[now input] calls IH]; intros this localStorage; [done|].
  cbn [createUsers createUser].
  match goal with
  | |- context [createUsers calls ?r ?s] =>
      specialize (IH r s); destruct (createUsers calls r s) as [[rest this'] ls']
  end.
  cbn [fst snd fmap list_fmap length seq User.id nextId] in *.
  f_equal; [lia|].
  rewrite IH, <- fmap_S_seq, <- list_fmap_compose.
  apply list_fmap_ext. intros _ i _. cbn. lia.
Qed.

Lemma createUsers_dates (calls : list (Date * CreateUserInput))
    (this : t) (localStorage : Storage) :
  Forall2 (λ call user, User.createdAt user = call.1 ∧ User.updatedAt user = None)
    calls (createUsers calls this localStorage).1.1.
Proof.
  revert this localStorage.
  induction calls as [|[now input] calls IH]; intros this localStorage;
    [constructor|].
  cbn [createUsers createUser].
  match goal with
  | |- context [createUsers calls ?r ?s] =>
      specialize (IH r s); destruct (createUsers calls r s) as [[rest this'] ls']
  end.
  constructor; [done | exact IH].
Qed.

End MockUserFacts.

(** ** The claims about the simulated adapters *)

Section MockClaims.

Import MockTodoRepository.

(** The user adapter after a reload from a slot that holds users, the
    next created user gets an id above every stored id. *)
Lemma reload_createUser_fresh_id (initialUsers : list User.t) (localStorage : Storage)
    (stored : list UserJson) (now : Date) (input : CreateUserInput) :
  localStorage !! MockUserRepository.LOCAL_STORAGE_KEY = Some (UserArray stored) →
  stored ≠ [] →
  let '(this, localStorage) := MockUserRepository.constructor initialUsers localStorage in
  Forall (λ user, uj_id user
                  < User.id (MockUserRepository.createUser now input this localStorage).1.1)
    stored.
Proof.
  intros Hslot Hne.
  pose proof (MockUserFacts.constructor_reload initialUsers _ _ Hslot Hne) as [_ Hlt].
  by destruct (MockUserRepository.constructor _ _) as [this ls'].
Qed.

(** The task adapter after a reload: whatever the slot holds, the first task created
    after construction gets id 1. *)
Lemma reload_createTodo_id (initialTodos : list Todo.t) (localStorage : Storage)
    (now : Date) (input : CreateTodoInput) :
  let '(this, localStorage) := constructor initialTodos localStorage in
  Todo.id (createTodo now input this localStorage).1.1 = 1.
Proof.
  pose proof (MockTodoFacts.constructor_nextId initialTodos localStorage) as Hnext.
  by destruct (constructor _ _) as [this ls'].
Qed.

(** C1.  Reloading the task adapter over the two persisted tasks, with
    ids 1 and 2, and creating a task: the new task gets id 1 again, which
    is not above the persisted ids, and the collection then holds two
    tasks with id 1. *)
Theorem C1_task_reload_reuses_id :
  let '(this, localStorage) := constructor [] persisted in
  let '(newTodo, this, _) :=
    createTodo 3000 {| cti_title := "Call bank"; cti_completed := None;
                       cti_userId := None |} this localStorage in
  Todo.id newTodo = 1 ∧ Todo.id <$> getTodos this = [1; 2; 1].
Proof. vm_compute. done. Qed.


(** C4 as stated fails on an empty title.  Updating the task
    "Write report" with the empty string as title leaves the title as it
    was, in the returned task and in the stored one. *)
Lemma C4_empty_title_is_ignored :
  let input := {| uti_id := 1; uti_title := Some EmptyString;
                  uti_completed := None; uti_userId := None |} in
  let result := updateTodo 3000 input sampleTodos persisted in
  Todo.title <$> result.1.1 = Some "Write report"%string
  ∧ Todo.title <$> getTodoById (IdNum 1) result.1.2 = Some "Write report"%string
  ∧ Todo.title <$> result.1.1 ≠ uti_title input.
Proof. vm_compute. by repeat split. Qed.

(** C4, amended.  For a task present in the adapter (ids unique) and an
    update input naming its id, the updated task, which is returned and
    stored in place of the old one, takes the input's [completed] and
    [userId] when provided and a provided title when it is not empty;
    it keeps the old value of each omitted field, and keeps the old
    title when the provided title is the empty string. *)
Theorem C4_updateTodo_patches_fields (now : Date) (input : UpdateTodoInput)
    (this : t) (localStorage : Storage) (old : Todo.t) :
  NoDup (Todo.id <$> todos this) →
  old ∈ todos this →
  Todo.id old = uti_id input →
  ∃ updated this' localStorage',
    updateTodo now input this localStorage = (Some updated, this', localStorage')
    ∧ getTodoById (IdNum (uti_id input)) this' = Some updated
    ∧ Todo.title updated =
        match uti_title input with
        | Some EmptyString => Todo.title old
        | Some title => title
        | None => Todo.title old
        end
    ∧ Todo.completed updated =
        match uti_completed input with
        | Some completed => completed
        | None => Todo.completed old
        end
    ∧ Todo.userId updated =
        match uti_userId input with
        | Some userId => Some userId
        | None => Todo.userId old
        end.
Proof.
  intros Hnd Hold Hid.
  destruct (list_find_key (λ todo, Todo.id todo = uti_id input)
              Todo.id (uti_id input) (todos this) old) as [index Hfind]; [done..|].
  eexists _, _, _. split; [by apply MockTodoFacts.updateTodo_found|].
  split.
  - unfold getTodoById, find, numericId. cbn [todos].
    erewrite (list_find_insert_same (λ todo, Int (Todo.id todo) = Int (uti_id input)));
      [done | | by cbn; rewrite Hid].
    apply list_find_Some in Hfind as (Hi & _ & Hleast).
    apply list_find_Some. split_and!; [done | by rewrite Hid |].
    intros j y Hj Hlt [= Hy]. by eapply Hleast.
  - cbn. split_and!.
    + by destruct (uti_title input) as [[|]|].
    + by destruct (uti_completed input).
    + done.
Qed.

Lemma C4_updateTodo_patches_fields_witness :
  ∃ updated this' localStorage',
    updateTodo 3000 {| uti_id := 2; uti_title := Some "Buy fruit"%string;
                       uti_completed := Some false; uti_userId := None |}
      sampleTodos persisted = (Some updated, this', localStorage')
    ∧ getTodoById (IdNum 2) this' = Some updated
    ∧ Todo.title updated = "Buy fruit"%string
    ∧ Todo.completed updated = false
    ∧ Todo.userId updated = Some 2.
Proof.
  apply (C4_updateTodo_patches_fields 3000
           {| uti_id := 2; uti_title := Some "Buy fruit"%string;
              uti_completed := Some false; uti_userId := None |}
           sampleTodos persisted groceries).
  - apply (bool_decide_unpack _); vm_compute; exact I.
  - apply (bool_decide_unpack _); vm_compute; exact I.
  - reflexivity.
Defined.

(** C5.  For a task id present in the adapter, two calls of
    [toggleComplete] both succeed, each sets [updatedAt] to the time of
    the call, the first flips [completed] and the second restores it. *)
Theorem C5_toggleComplete_twice (now1 now2 : Date) (id : IdArg)
    (this : t) (localStorage : Storage) (task : Todo.t) :
  getTodoById id this = Some task →
  ∃ once this1 localStorage1 twice this2 localStorage2,
    toggleComplete now1 id this localStorage = (Some once, this1, localStorage1)
    ∧ toggleComplete now2 id this1 localStorage1 = (Some twice, this2, localStorage2)
    ∧ Todo.updatedAt once = Some now1
    ∧ Todo.updatedAt twice = Some now2
    ∧ Todo.completed once = negb (Todo.completed task)
    ∧ Todo.completed twice = Todo.completed task
    ∧ getTodoById id this1 = Some once
    ∧ getTodoById id this2 = Some twice.
Proof.
  intros Htask.
  destruct (MockTodoFacts.toggleComplete_getTodoById now1 id this localStorage task Htask)
    as (this1 & localStorage1 & Hcall1 & Hget1).
  destruct (MockTodoFacts.toggleComplete_getTodoById now2 id this1 localStorage1 _ Hget1)
    as (this2 & localStorage2 & Hcall2 & Hget2).
  exists (toggled now1 task), this1, localStorage1,
         (toggled now2 (toggled now1 task)), this2, localStorage2.
  split_and!; try done. cbn. apply negb_involutive.
Qed.

Lemma C5_toggleComplete_twice_witness :
  ∃ once this1 localStorage1 twice this2 localStorage2,
    toggleComplete 3000 (IdNum 2) sampleTodos persisted
      = (Some once, this1, localStorage1)
    ∧ toggleComplete 4000 (IdNum 2) this1 localStorage1
      = (Some twice, this2, localStorage2)
    ∧ Todo.updatedAt once = Some 3000
    ∧ Todo.updatedAt twice = Some 4000
    ∧ Todo.completed once = negb (Todo.completed groceries)
    ∧ Todo.completed twice = Todo.completed groceries
    ∧ getTodoById (IdNum 2) this1 = Some once
    ∧ getTodoById (IdNum 2) this2 = Some twice.
Proof.
  apply (C5_toggleComplete_twice 3000 4000 (IdNum 2) sampleTodos persisted groceries).
  vm_compute. reflexivity.
Defined.

(** C6.  In both simulated adapters, an update whose id no stored
    entity carries returns null and leaves the adapter and the
    persisted slot exactly as they were. *)
Theorem C6_update_unknown_id (now : Date)
    (todoInput : UpdateTodoInput) (userInput : UpdateUserInput)
    (this : t) (userRepository : MockUserRepository.t) (localStorage : Storage) :
  Forall (λ todo, Todo.id todo ≠ uti_id todoInput) (todos this) →
  Forall (λ user, User.id user ≠ uui_id userInput)
    (MockUserRepository.users userRepository) →
  updateTodo now todoInput this localStorage = (None, this, localStorage)
  ∧ MockUserRepository.updateUser now userInput userRepository localStorage
    = (None, userRepository, localStorage).
Proof.
  intros Htodo Huser. split.
  - by apply MockTodoFacts.updateTodo_unknown.
  - by apply MockUserFacts.updateUser_unknown.
Qed.

Lemma C6_update_unknown_id_witness :
  updateTodo 3000 unknownTodo sampleTodos persisted = (None, sampleTodos, persisted)
  ∧ MockUserRepository.updateUser 3000 unknownUser sampleUsers persisted
    = (None, sampleUsers, persisted).
Proof.
  apply (C6_update_unknown_id 3000 unknownTodo unknownUser
           sampleTodos sampleUsers persisted).
  - apply (bool_decide_unpack _); vm_compute; exact I.
  - apply (bool_decide_unpack _); vm_compute; exact I.
Defined.


(** C7.  In both simulated adapters, with unique ids: deleting an id
    that no entity carries returns false and changes nothing; deleting
    an id that an entity carries returns true, shortens the collection
    by exactly one and keeps exactly the entities with another id. *)
Theorem C7_delete_by_id (id : Z)
    (this : t) (userRepository : MockUserRepository.t) (localStorage : Storage) :
  NoDup (Todo.id <$> todos this) →
  NoDup (User.id <$> MockUserRepository.users userRepository) →
  let todoResult := deleteTodo (IdNum id) this localStorage in
  let userResult := MockUserRepository.deleteUser id userRepository localStorage in
  (id ∉ Todo.id <$> todos this → todoResult = (false, this, localStorage))
  ∧ (id ∈ Todo.id <$> todos this →
       todoResult.1.1 = true
       ∧ S (length (todos todoResult.1.2)) = length (todos this)
       ∧ ∀ todo, todo ∈ todos todoResult.1.2 ↔ todo ∈ todos this ∧ Todo.id todo ≠ id)
  ∧ (id ∉ User.id <$> MockUserRepository.users userRepository →
       userResult = (false, userRepository, localStorage))
  ∧ (id ∈ User.id <$> MockUserRepository.users userRepository →
       userResult.1.1 = true
       ∧ S (length (MockUserRepository.users userResult.1.2))
         = length (MockUserRepository.users userRepository)
       ∧ ∀ user, user ∈ MockUserRepository.users userResult.1.2
                 ↔ user ∈ MockUserRepository.users userRepository ∧ User.id user ≠ id).
Proof.
  intros Htodos Husers. cbn zeta. split_and!.
  - intros Hnot. apply MockTodoFacts.deleteTodo_unknown.
    apply Forall_forall. intros todo Hin [= Heq]. apply Hnot.
    rewrite <- Heq. by apply list_elem_of_fmap_2.
  - intros Hin.
    destruct (MockTodoFacts.deleteTodo_known id this localStorage Htodos Hin) as [Hres Hlen].
    split_and!; [done..|].
    intros todo. rewrite MockTodoFacts.deleteTodo_todos. cbn [numericId].
    split; intros [? Hne]; (split; [done|]); congruence.
  - intros Hnot. apply MockUserFacts.deleteUser_unknown.
    apply Forall_forall. intros user Hin Heq. apply Hnot.
    rewrite <- Heq. by apply list_elem_of_fmap_2.
  - intros Hin.
    destruct (MockUserFacts.deleteUser_known id userRepository localStorage Husers Hin)
      as [Hres Hlen].
    split_and!; [done..|].
    intros user. apply MockUserFacts.deleteUser_users.
Qed.

Lemma C7_delete_by_id_witness :
  (deleteTodo (IdNum 2) sampleTodos persisted).1.1 = true
  ∧ (MockUserRepository.deleteUser 2 sampleUsers persisted).1.1 = true
  ∧ deleteTodo (IdNum 9) sampleTodos persisted = (false, sampleTodos, persisted)
  ∧ MockUserRepository.deleteUser 9 sampleUsers persisted = (false, sampleUsers, persisted).
Proof.
  assert (Htodos : NoDup (Todo.id <$> todos sampleTodos))
    by (apply (bool_decide_unpack _); vm_compute; exact I).
  assert (Husers : NoDup (User.id <$> MockUserRepository.users sampleUsers))
    by (apply (bool_decide_unpack _); vm_compute; exact I).
  destruct (C7_delete_by_id 2 sampleTodos sampleUsers persisted Htodos Husers)
    as (_ & Htodo & _ & Huser).
  destruct (C7_delete_by_id 9 sampleTodos sampleUsers persisted Htodos Husers)
    as (Htodo' & _ & Huser' & _).
  split; [|split; [|split]].
  - apply Htodo. apply (bool_decide_unpack _); vm_compute; exact I.
  - apply Huser. apply (bool_decide_unpack _); vm_compute; exact I.
  - apply Htodo'. apply (bool_decide_unpack _); vm_compute; exact I.
  - apply Huser'. apply (bool_decide_unpack _); vm_compute; exact I.
Defined.

(** C8.  On a freshly constructed simulated adapter that holds nothing,
    a run of creations hands out the ids 1, 2, 3, ... in order, and
    every created entity carries the time of its creation as
    [createdAt] and no [updatedAt].  Each adapter is taken over a
    storage of its own choice: the task adapter may be the empty one
    next to persisted users, and the other way round. *)
Theorem C8_fresh_adapter_ids
    (initialTodos : list Todo.t) (initialUsers : list User.t)
    (todoStorage userStorage : Storage)
    (todoCalls : list (Date * CreateTodoInput))
    (userCalls : list (Date * CreateUserInput)) :
  todos (constructor initialTodos todoStorage).1 = [] →
  MockUserRepository.users (MockUserRepository.constructor initialUsers userStorage).1 = [] →
  let createdTodos :=
    (createTodos todoCalls (constructor initialTodos todoStorage).1
       (constructor initialTodos todoStorage).2).1.1 in
  let createdUsers :=
    (MockUserRepository.createUsers userCalls
       (MockUserRepository.constructor initialUsers userStorage).1
       (MockUserRepository.constructor initialUsers userStorage).2).1.1 in
  Todo.id <$> createdTodos = Z.of_nat <$> seq 1 (length todoCalls)
  ∧ Forall2 (λ call todo, Todo.createdAt todo = call.1 ∧ Todo.updatedAt todo = None)
      todoCalls createdTodos
  ∧ User.id <$> createdUsers = Z.of_nat <$> seq 1 (length userCalls)
  ∧ Forall2 (λ call user, User.createdAt user = call.1 ∧ User.updatedAt user = None)
      userCalls createdUsers.
Proof.
  intros _ Husers. cbn zeta. split_and!.
  - rewrite MockTodoFacts.createTodos_ids, MockTodoFacts.constructor_nextId.
    rewrite <- fmap_S_seq, <- list_fmap_compose.
    apply list_fmap_ext. intros _ i _. cbn. lia.
  - apply MockTodoFacts.createTodos_dates.
  - rewrite MockUserFacts.createUsers_ids, MockUserFacts.constructor_empty_nextId by done.
    rewrite <- fmap_S_seq, <- list_fmap_compose.
    apply list_fmap_ext. intros _ i _. cbn. lia.
  - apply MockUserFacts.createUsers_dates.
Qed.

Lemma C8_fresh_adapter_ids_witness :
  let todoCalls :=
    [(10, {| cti_title := "T1"%string; cti_completed := None; cti_userId := Some 1 |});
     (20, {| cti_title := "T2"%string; cti_completed := Some true; cti_userId := None |});
     (30, {| cti_title := "T3"%string; cti_completed := None; cti_userId := None |})] in
  let userCalls :=
    [(10, {| cui_name := "A"%string; cui_email := "a@x.com"%string |});
     (20, {| cui_name := "B"%string; cui_email := "b@x.com"%string |})] in
  let usersOnly := delete LOCAL_STORAGE_KEY persisted in
  Todo.id <$> (createTodos todoCalls (constructor [] usersOnly).1
                 (constructor [] usersOnly).2).1.1
    = [1; 2; 3]
  ∧ User.id <$> (MockUserRepository.createUsers userCalls
                   (MockUserRepository.constructor [] ∅).1
                   (MockUserRepository.constructor [] ∅).2).1.1
    = [1; 2].
Proof.
  cbn zeta.
  destruct (C8_fresh_adapter_ids [] [] (delete LOCAL_STORAGE_KEY persisted) ∅
    [(10, {| cti_title := "T1"%string; cti_completed := None; cti_userId := Some 1 |});
     (20, {| cti_title := "T2"%string; cti_completed := Some true; cti_userId := None |});
     (30, {| cti_title := "T3"%string; cti_completed := None; cti_userId := None |})]
    [(10, {| cui_name := "A"%string; cui_email := "a@x.com"%string |});
     (20, {| cui_name := "B"%string; cui_email := "b@x.com"%string |})])
    as (Htodos & _ & Husers & _).
  - vm_compute. reflexivity.
  - reflexivity.
  - split; [exact Htodos | exact Husers].
Defined.

(** C9.  Deleting a user leaves the task adapter as it was: the same
    tasks in memory, the same persisted task slot, so the same tasks
    after a reload; the tasks that reference the deleted user are all
    still there with their [userId]. *)
Theorem C9_deleteUser_keeps_tasks (id : Z) (b : Browser) (initialTodos : list Todo.t) :
  let b' := (Browser_deleteUser id b).2 in
  todoRepository b' = todoRepository b
  ∧ getTodos (todoRepository b') = getTodos (todoRepository b)
  ∧ localStorage b' !! LOCAL_STORAGE_KEY = localStorage b !! LOCAL_STORAGE_KEY
  ∧ (constructor initialTodos (localStorage b')).1
    = (constructor initialTodos (localStorage b)).1
  ∧ filter (λ todo, Todo.userId todo = Some id) (getTodos (todoRepository b'))
    = filter (λ todo, Todo.userId todo = Some id) (getTodos (todoRepository b)).
Proof.
  unfold Browser_deleteUser.
  pose proof (MockUserFacts.deleteUser_storage id (userRepository b) (localStorage b)
                LOCAL_STORAGE_KEY) as Hslot.
  destruct (MockUserRepository.deleteUser _ _ _) as [[deleted users'] storage'].
  cbn [snd todoRepository localStorage] in *.
  assert (Hkey : storage' !! LOCAL_STORAGE_KEY = localStorage b !! LOCAL_STORAGE_KEY)
    by by apply Hslot.
  split_and!; [done..| |done].
  unfold constructor, loadFromLocalStorage. rewrite Hkey.
  repeat case_match; reflexivity.
Qed.

(** C10.  In the simulated task adapter, [getTodoById], [deleteTodo]
    and [toggleComplete] called with the decimal numeral of a natural
    number behave as when called with the number: same result, same
    adapter state, same storage. *)
Theorem C10_string_id_as_number (n : N) (now : Date)
    (this : t) (localStorage : Storage) :
  getTodoById (IdStr (decimal n)) this = getTodoById (IdNum (Z.of_N n)) this
  ∧ deleteTodo (IdStr (decimal n)) this localStorage
    = deleteTodo (IdNum (Z.of_N n)) this localStorage
  ∧ toggleComplete now (IdStr (decimal n)) this localStorage
    = toggleComplete now (IdNum (Z.of_N n)) this localStorage.
Proof.
  assert (Hid : numericId (IdStr (decimal n)) = numericId (IdNum (Z.of_N n)))
    by apply parseInt_decimal.
  unfold getTodoById, deleteTodo, toggleComplete. by rewrite Hid.
Qed.

End MockClaims.

(** ** The GraphQL adapters *)

Section RemoteClaims.

(** A [try] whose handler returns cannot throw. *)
Lemma try_catch_returns {A} (body : Outcome A) (fallback : A) :
  didThrow (try_catch body (λ _, Returns fallback)) = false.
Proof. by destruct body. Qed.

(** C3 as stated fails for the user variant.  With the network down,
    the user adapter's [getUserById], [updateUser] and [deleteUser]
    reject with the transport's error. *)
Lemma C3_user_adapter_rethrows :
  GraphQLUserRepository.getUserById offlineUsers 1 = Throws networkError
  ∧ GraphQLUserRepository.updateUser offlineUsers unknownUser = Throws networkError
  ∧ GraphQLUserRepository.deleteUser offlineUsers 1 = Throws networkError.
Proof. repeat split. Qed.

(** C3, amended.  Whatever the transport does, the task variant's
    [getTodoById], [updateTodo], [deleteTodo] and [toggleComplete] never
    throw: they return the entity (or the server's flag) of a
    well-formed response and null/false in every other case, a raised
    transport error included; [createTodo] passes a transport error on to
    its caller.  The user variant has no handler: [getUserById],
    [updateUser] and [deleteUser] return null (or the server's flag) when
    the response says so, and pass a transport error on to the caller,
    as its [createUser] does. *)
Theorem C3_remote_adapters_on_failure
    (client : GraphQLTodoRepository.ApolloClient)
    (userClient : GraphQLUserRepository.ApolloClient)
    (id : string) (create : CreateTodoInput) (update : UpdateTodoInput)
    (userId : Z) (userUpdate : UpdateUserInput) (userCreate : CreateUserInput) :
  (didThrow (GraphQLTodoRepository.getTodoById client id) = false
   ∧ didThrow (GraphQLTodoRepository.updateTodo client update) = false
   ∧ didThrow (GraphQLTodoRepository.deleteTodo client id) = false
   ∧ didThrow (GraphQLTodoRepository.toggleComplete client id) = false)
  ∧ (GraphQLTodoRepository.getTodoById client id =
       match GraphQLTodoRepository.GET_TODO_BY_ID client id with
       | Returns (Some (Some todo)) => Returns (Some (todo_of_json todo))
       | _ => Returns None
       end
     ∧ GraphQLTodoRepository.updateTodo client update =
       match GraphQLTodoRepository.UPDATE_TODO client update with
       | Returns (Some (Some todo)) => Returns (Some (todo_of_json todo))
       | _ => Returns None
       end
     ∧ GraphQLTodoRepository.deleteTodo client id =
       match GraphQLTodoRepository.DELETE_TODO client id with
       | Returns (Some deleted) => Returns deleted
       | _ => Returns false
       end
     ∧ GraphQLTodoRepository.toggleComplete client id =
       match GraphQLTodoRepository.TOGGLE_COMPLETE client id with
       | Returns (Some (Some todo)) => Returns (Some (todo_of_json todo))
       | _ => Returns None
       end)
  ∧ match GraphQLTodoRepository.CREATE_TODO client create with
    | Throws error => GraphQLTodoRepository.createTodo client create = Throws error
    | Returns (Some (Some todo)) =>
        GraphQLTodoRepository.createTodo client create = Returns (todo_of_json todo)
    | Returns _ => didThrow (GraphQLTodoRepository.createTodo client create) = true
    end
  ∧ match GraphQLUserRepository.GetUser userClient userId with
    | Throws error => GraphQLUserRepository.getUserById userClient userId = Throws error
    | Returns (Some user) =>
        GraphQLUserRepository.getUserById userClient userId
        = Returns (user_of_json <$> user)
    | Returns None =>
        didThrow (GraphQLUserRepository.getUserById userClient userId) = true
    end
  ∧ match GraphQLUserRepository.UpdateUser userClient userUpdate with
    | Throws error => GraphQLUserRepository.updateUser userClient userUpdate = Throws error
    | Returns (Some user) =>
        GraphQLUserRepository.updateUser userClient userUpdate
        = Returns (user_of_json <$> user)
    | Returns None =>
        didThrow (GraphQLUserRepository.updateUser userClient userUpdate) = true
    end
  ∧ match GraphQLUserRepository.DeleteUser userClient userId with
    | Throws error => GraphQLUserRepository.deleteUser userClient userId = Throws error
    | Returns (Some deleted) =>
        GraphQLUserRepository.deleteUser userClient userId = Returns deleted
    | Returns None =>
        didThrow (GraphQLUserRepository.deleteUser userClient userId) = true
    end
  ∧ match GraphQLUserRepository.CreateUser userClient userCreate with
    | Throws error => GraphQLUserRepository.createUser userClient userCreate = Throws error
    | Returns (Some (Some user)) =>
        GraphQLUserRepository.createUser userClient userCreate
        = Returns (user_of_json user)
    | Returns _ =>
        didThrow (GraphQLUserRepository.createUser userClient userCreate) = true
    end.
Proof.
  split; [|split; [|split; [|split; [|split; [|split]]]]].
  - unfold GraphQLTodoRepository.getTodoById, GraphQLTodoRepository.updateTodo,
      GraphQLTodoRepository.deleteTodo, GraphQLTodoRepository.toggleComplete.
    by rewrite !try_catch_returns.
  - unfold GraphQLTodoRepository.getTodoById, GraphQLTodoRepository.updateTodo,
      GraphQLTodoRepository.deleteTodo, GraphQLTodoRepository.toggleComplete.
    destruct (GraphQLTodoRepository.GET_TODO_BY_ID client id) as [[[?|]|]|?],
      (GraphQLTodoRepository.UPDATE_TODO client update) as [[[?|]|]|?],
      (GraphQLTodoRepository.DELETE_TODO client id) as [[?|]|?],
      (GraphQLTodoRepository.TOGGLE_COMPLETE client id) as [[[?|]|]|?];
      by repeat split.
  - unfold GraphQLTodoRepository.createTodo.
    by destruct (GraphQLTodoRepository.CREATE_TODO client create) as [[[?|]|]|?].
  - unfold GraphQLUserRepository.getUserById.
    by destruct (GraphQLUserRepository.GetUser userClient userId) as [[[?|]|]|?].
  - unfold GraphQLUserRepository.updateUser.
    by destruct (GraphQLUserRepository.UpdateUser userClient userUpdate) as [[[?|]|]|?].
  - unfold GraphQLUserRepository.deleteUser.
    by destruct (GraphQLUserRepository.DeleteUser userClient userId) as [[?|]|?].
  - unfold GraphQLUserRepository.createUser.
    by destruct (GraphQLUserRepository.CreateUser userClient userCreate) as [[[?|]|]|?].
Qed.

End RemoteClaims.

(** ** The stores *)

Section StoreClaims.

(** Every action of the task store is loading while its call is pending. *)
Lemma TodoStore_started_loading (state : TodoStore.TodoState) :
  TodoStore.isLoading (TodoStore.started state) = true
  ∧ TodoStore.error (TodoStore.started state) = None.
Proof. done. Qed.

Lemma UserStore_started_loading (state : UserStore.UserState) :
  UserStore.isLoading (UserStore.started state) = true
  ∧ UserStore.error (UserStore.started state) = None.
Proof. done. Qed.

(** Fetching and creating end idle, however the repository call ends. *)
Lemma fetch_and_add_end_idle
    (state : TodoStore.TodoState) (userState : UserStore.UserState)
    (fetched : Outcome (list Todo.t)) (added : Outcome Todo.t)
    (fetchedUsers : Outcome (list User.t)) (addedUser : Outcome User.t)
    (gotUser : Outcome (option User.t)) :
  TodoStore.isLoading (TodoStore.fetchTodos fetched state) = false
  ∧ TodoStore.isLoading (TodoStore.addTodo added state) = false
  ∧ UserStore.isLoading (UserStore.fetchUsers fetchedUsers userState) = false
  ∧ UserStore.isLoading (UserStore.addUser addedUser userState).2 = false
  ∧ UserStore.isLoading (UserStore.getUserById gotUser userState).2 = false.
Proof. by destruct fetched, added, fetchedUsers, addedUser, gotUser. Qed.

(** Updating, deleting and toggling end idle exactly when the
    repository did not answer null or false. *)
Lemma update_delete_toggle_end_idle
    (state : TodoStore.TodoState) (userState : UserStore.UserState)
    (id : IdArg) (userId : Z)
    (updated : Outcome (option Todo.t)) (deleted : Outcome bool)
    (updatedUser : Outcome (option User.t)) :
  TodoStore.isLoading (TodoStore.updateTodo updated state)
    = match updated with Returns None => true | _ => false end
  ∧ TodoStore.isLoading (TodoStore.toggleTodoComplete updated state)
    = match updated with Returns None => true | _ => false end
  ∧ TodoStore.isLoading (TodoStore.deleteTodo id deleted state)
    = match deleted with Returns false => true | _ => false end
  ∧ UserStore.isLoading (UserStore.updateUser updatedUser userState).2
    = match updatedUser with Returns None => true | _ => false end
  ∧ UserStore.isLoading (UserStore.deleteUser userId deleted userState)
    = match deleted with Returns false => true | _ => false end.
Proof. by destruct updated as [[?|]|?], deleted as [[|]|?], updatedUser as [[?|]|?]. Qed.

(** C2.  When the repository answers null to an update or a toggle, or
    false to a delete, the store's action completes with the loading
    flag still set: the store does not return to idle.  This is what
    happens for an update that names an id unknown to the active
    simulated adapter. *)
Theorem C2_null_result_leaves_loading
    (state : TodoStore.TodoState) (userState : UserStore.UserState)
    (id : IdArg) (userId : Z) :
  TodoStore.isLoading (TodoStore.updateTodo (Returns None) state) = true
  ∧ TodoStore.isLoading (TodoStore.deleteTodo id (Returns false) state) = true
  ∧ TodoStore.isLoading (TodoStore.toggleTodoComplete (Returns None) state) = true
  ∧ UserStore.isLoading (UserStore.updateUser (Returns None) userState).2 = true
  ∧ UserStore.isLoading (UserStore.deleteUser userId (Returns false) userState) = true
  ∧ TodoStore.isLoading
      (TodoStore.updateTodo
         (Returns (MockTodoRepository.updateTodo 3000 unknownTodo
                     sampleTodos persisted).1.1)
         TodoStore.initial) = true.
Proof. done. Qed.

End StoreClaims.

(** * Further properties of the simulated adapters *)

Section ArraysMore.
Context {A : Type} (P : A → Prop) `{∀ x, Decision (P x)}.

(** A filter that keeps the length keeps the array. *)
Lemma filter_length_eq (l : list A) : length (filter P l) = length l → filter P l = l.
Proof.
  induction l as [|x l IH]; [done|].
  destruct (decide (P x)) as [Hx|Hx].
  - rewrite filter_cons_True by done. cbn [length]. intros [= Hlen]. by rewrite IH.
  - rewrite filter_cons_False by done. cbn [length].
    pose proof (length_filter P l). lia.
Qed.

(** Nothing is found in what a filter on the negated predicate keeps. *)
Lemma list_find_filter_not (l : list A) : list_find P (filter (λ x, ¬ P x) l) = None.
Proof.
  apply list_find_None, Forall_forall. intros x Hx.
  by apply list_elem_of_filter in Hx as [Hx _].
Qed.

(** Overwriting one slot leaves every element that differs from both the
    old and the new content where it was. *)
Lemma elem_of_insert_other (l : list A) (i : nat) (old new x : A) :
  l !! i = Some old → x ≠ old → x ≠ new →
  x ∈ <[i := new]> l ↔ x ∈ l.
Proof.
  intros Hi Hold Hnew. rewrite !list_elem_of_lookup. split; intros [j Hj].
  - destruct (decide (i = j)) as [->|Hne].
    + rewrite list_lookup_insert_eq in Hj by by eapply lookup_lt_Some. congruence.
    + rewrite list_lookup_insert_ne in Hj by done. eauto.
  - destruct (decide (i = j)) as [->|Hne]; [congruence|].
    exists j. by rewrite list_lookup_insert_ne.
Qed.

(** Overwriting a slot that the filter drops with an element that it
    drops as well does not change what the filter keeps. *)
Lemma filter_insert_dropped (l : list A) (i : nat) (old new : A) :
  l !! i = Some old → ¬ P old → ¬ P new →
  filter P (<[i := new]> l) = filter P l.
Proof.
  revert i. induction l as [|x l IH]; intros [|i] Hi Hold Hnew; try done.
  - injection Hi as ->. cbn [insert list_insert].
    by rewrite !filter_cons_False.
  - change (<[S i := new]> (x :: l)) with (x :: <[i := new]> l).
    rewrite !filter_cons. by rewrite (IH i).
Qed.

(** Filtering keeps the keys distinct. *)
Lemma NoDup_fmap_filter {B} (key : A → B) (l : list A) :
  NoDup (key <$> l) → NoDup (key <$> filter P l).
Proof.
  induction l as [|x l IH]; [done|]. cbn [fmap list_fmap].
  intros [Hx Hnd]%NoDup_cons. rewrite filter_cons. case_decide; [|by apply IH].
  cbn [fmap list_fmap]. apply NoDup_cons. split; [|by apply IH].
  intros (y & Hy & [_ Hin]%list_elem_of_filter)%list_elem_of_fmap.
  apply Hx. rewrite Hy. by apply list_elem_of_fmap_2.
Qed.

End ArraysMore.

Module MockTodoMore.
Import MockTodoRepository.

Lemma constructor_no_initial (localStorage : Storage) :
  constructor [] localStorage = (loadFromLocalStorage initial localStorage, localStorage).
Proof. unfold constructor. by case_match. Qed.

(** Whatever was saved is what a new adapter finds, when the dates let
    the save go through. *)
Lemma dates_valid_forallb (this : t) :
  todo_dates_valid this → forallb serializable (todos this) = true.
Proof.
  intros Hdates. apply forallb_forall. intros todo Hin.
  apply (proj1 (Forall_forall _ _) Hdates). by apply list_elem_of_In.
Qed.

Lemma saved_in_sync (this : t) (localStorage : Storage) :
  todo_dates_valid this → todos_in_sync this (saveToLocalStorage this localStorage).
Proof.
  intros Hdates%dates_valid_forallb.
  unfold todos_in_sync. rewrite constructor_no_initial. cbn [fst].
  by rewrite MockTodoFacts.load_after_save.
Qed.

(** A save that meets the Invalid Date writes nothing. *)
Lemma save_blocked (this : t) (localStorage : Storage) :
  ¬ todo_dates_valid this → saveToLocalStorage this localStorage = localStorage.
Proof.
  intros Hdates. unfold saveToLocalStorage.
  destruct (forallb serializable (todos this)) eqn:Hall; [|done].
  destruct Hdates. apply Forall_forall. intros todo Hin.
  apply (proj1 (forallb_forall _ _) Hall). by apply list_elem_of_In.
Qed.

Lemma patch_id (now : Date) (input : UpdateTodoInput) (old : Todo.t) :
  Todo.id (patch now input old) = Todo.id old.
Proof. done. Qed.

Lemma patch_serializable (now : Date) (input : UpdateTodoInput) (old : Todo.t) :
  valid_date now = true → serializable old = true →
  serializable (patch now input old) = true.
Proof.
  unfold serializable. cbn [patch Todo.createdAt Todo.updatedAt from_option].
  intros -> [-> _]%andb_prop. done.
Qed.

Lemma toggled_serializable (now : Date) (old : Todo.t) :
  valid_date now = true → serializable old = true →
  serializable (toggled now old) = true.
Proof.
  unfold serializable. cbn [toggled Todo.createdAt Todo.updatedAt from_option].
  intros -> [-> _]%andb_prop. done.
Qed.

(** The seed tasks carry the dates of the clock and the calendar. *)
Lemma seeds_serializable (dates : SeedDates) (nextId : Z) :
  Forall (λ todo, serializable todo = true) (generateTodoSeedData dates nextId).
Proof.
  pose proof (sd_valid dates) as Hvalid. cbn [forallb] in Hvalid.
  apply andb_prop in Hvalid as [Hnow Hvalid].
  apply andb_prop in Hvalid as [Hyesterday Hvalid].
  apply andb_prop in Hvalid as [HlastWeek Hvalid].
  apply andb_prop in Hvalid as [HlastMonth _].
  unfold generateTodoSeedData, serializable.
  repeat constructor; cbn [Todo.createdAt Todo.updatedAt from_option];
    by rewrite ?Hnow, ?Hyesterday, ?HlastWeek, ?HlastMonth.
Qed.

(** Overwriting a slot with a task of the same id keeps the list of ids. *)
Lemma ids_insert_same (l : list Todo.t) (i : nat) (old new : Todo.t) :
  l !! i = Some old → Todo.id new = Todo.id old →
  Todo.id <$> <[i := new]> l = Todo.id <$> l.
Proof.
  intros Hi Hid. rewrite list_fmap_insert. apply list_insert_id.
  by rewrite list_lookup_fmap, Hi, Hid.
Qed.


(** X1.  While the clock reads a valid date and no task of the collection
    carries the Invalid Date, no [toISOString] throws inside
    [saveToLocalStorage], and every operation of the task adapter leaves
    the storage mirroring the collection: if a new adapter over the
    storage would have found the collection before the call, it finds
    the collection after it.  The dates of the collection stay valid. *)
Theorem todo_storage_stays_in_sync (now : Date) (dates : SeedDates)
    (create : CreateTodoInput) (update : UpdateTodoInput) (id : IdArg)
    (this : t) (localStorage : Storage) :
  valid_date now = true → todo_dates_valid this → todos_in_sync this localStorage →
  (let r := createTodo now create this localStorage in
   todo_dates_valid r.1.2 ∧ todos_in_sync r.1.2 r.2)
  ∧ (let r := updateTodo now update this localStorage in
     todo_dates_valid r.1.2 ∧ todos_in_sync r.1.2 r.2)
  ∧ (let r := deleteTodo id this localStorage in
     todo_dates_valid r.1.2 ∧ todos_in_sync r.1.2 r.2)
  ∧ (let r := toggleComplete now id this localStorage in
     todo_dates_valid r.1.2 ∧ todos_in_sync r.1.2 r.2)
  ∧ (let r := fillWithSampleData dates this localStorage in
     todo_dates_valid r.1 ∧ todos_in_sync r.1 r.2)
  ∧ (let r := clearLocalStorage this localStorage in
     todo_dates_valid r.1 ∧ todos_in_sync r.1 r.2).
Proof.
  intros Hnow Hdates Hsync. cbn zeta.
  assert (Hcreated : todo_dates_valid (createTodo now create this localStorage).1.2).
  { unfold todo_dates_valid, createTodo. cbn [fst snd todos].
    apply Forall_app. split; [done|]. apply Forall_singleton.
    unfold serializable. cbn [Todo.createdAt Todo.updatedAt from_option].
    by rewrite Hnow. }
  assert (Hupdated : todo_dates_valid (updateTodo now update this localStorage).1.2).
  { unfold updateTodo.
    destruct (list_find _ _) as [[index old]|] eqn:Hfind; [|done].
    apply list_find_Some in Hfind as (Hindex & _ & _).
    unfold todo_dates_valid. cbn [fst snd todos]. apply Forall_insert; [done|].
    apply patch_serializable; [done|].
    by apply (Forall_lookup_1 _ _ _ _ Hdates Hindex). }
  assert (Hdeleted : todo_dates_valid (deleteTodo id this localStorage).1.2).
  { unfold todo_dates_valid, deleteTodo. cbn [fst snd todos].
    apply Forall_forall. intros todo [_ Hin]%list_elem_of_filter.
    by apply (proj1 (Forall_forall _ _) Hdates). }
  assert (Htoggled : todo_dates_valid (toggleComplete now id this localStorage).1.2).
  { unfold toggleComplete.
    destruct (list_find _ _) as [[index old]|] eqn:Hfind; [|done].
    apply list_find_Some in Hfind as (Hindex & _ & _).
    unfold todo_dates_valid. cbn [fst snd todos]. apply Forall_insert; [done|].
    apply toggled_serializable; [done|].
    by apply (Forall_lookup_1 _ _ _ _ Hdates Hindex). }
  assert (Hfilled : todo_dates_valid (fillWithSampleData dates this localStorage).1).
  { unfold todo_dates_valid, fillWithSampleData, generateSeedData.
    repeat case_match; simplify_eq; cbn [fst todos]; apply seeds_serializable. }
  split; [|split; [|split; [|split; [|split]]]];
    (split; [first [done | by constructor]|]).
  - by apply saved_in_sync.
  - revert Hupdated. unfold updateTodo.
    destruct (list_find _ _) as [[index old]|]; [|done].
    cbn [fst snd]. apply saved_in_sync.
  - revert Hdeleted. unfold deleteTodo. cbn [fst snd todos].
    destruct (Nat.eqb_spec (length (filter (λ todo, Int (Todo.id todo) ≠ numericId id)
                                      (todos this))) (length (todos this))) as [Hlen|Hlen];
      cbn [negb]; [|apply saved_in_sync].
    intros _. unfold todos_in_sync in *. cbn [todos]. by rewrite filter_length_eq.
  - revert Htoggled. unfold toggleComplete.
    destruct (list_find _ _) as [[index old]|]; [|done].
    cbn [fst snd]. apply saved_in_sync.
  - revert Hfilled. unfold fillWithSampleData.
    destruct (generateSeedData dates this) as [seeds this'].
    cbn [fst snd]. apply saved_in_sync.
  - unfold clearLocalStorage, todos_in_sync. cbn [fst snd todos].
    rewrite constructor_no_initial. unfold loadFromLocalStorage.
    by rewrite lookup_delete_eq.
Qed.

Lemma todo_storage_stays_in_sync_witness :
  todos_in_sync (createTodo 3000 {| cti_title := "Call bank"; cti_completed := None;
                                    cti_userId := None |} sampleTodos persisted).1.2
    (createTodo 3000 {| cti_title := "Call bank"; cti_completed := None;
                        cti_userId := None |} sampleTodos persisted).2.
Proof.
  refine (proj2 (proj1 (todo_storage_stays_in_sync 3000 sampleDates
                   {| cti_title := "Call bank"; cti_completed := None; cti_userId := None |}
                   unknownTodo (IdNum 2) sampleTodos persisted _ _ _))).
  - reflexivity.
  - apply (bool_decide_unpack _). vm_compute. exact I.
  - vm_compute. reflexivity.
Defined.

(** X2.  Within the life of one task adapter the ids stay pairwise distinct
    and below the counter: every contract operation keeps that, and a
    created task gets an id no stored task carries. *)
Theorem todo_ids_stay_fresh (now : Date)
    (create : CreateTodoInput) (update : UpdateTodoInput) (id : IdArg)
    (this : t) (localStorage : Storage) :
  todo_ids_fresh this →
  todo_ids_fresh (createTodo now create this localStorage).1.2
  ∧ (let created := (createTodo now create this localStorage).1.1 in
     Todo.id created ∉ Todo.id <$> todos this)
  ∧ todo_ids_fresh (updateTodo now update this localStorage).1.2
  ∧ todo_ids_fresh (deleteTodo id this localStorage).1.2
  ∧ todo_ids_fresh (toggleComplete now id this localStorage).1.2.
Proof.
  intros [Hnd Hlt].
  assert (Hnew : nextId this ∉ Todo.id <$> todos this).
  { intros (todo & Heq & Hin)%list_elem_of_fmap.
    rewrite Forall_forall in Hlt. specialize (Hlt _ Hin). lia. }
  split; [|split; [|split; [|split]]].
  - unfold todo_ids_fresh, createTodo. cbn [fst snd todos nextId]. split.
    + rewrite fmap_app. apply NoDup_app. split_and!; [done| |apply NoDup_singleton].
      intros x Hx Hin. apply list_elem_of_singleton in Hin. cbn in Hin. by subst x.
    + apply Forall_app. split.
      * eapply Forall_impl; [exact Hlt|]. cbn. intros. lia.
      * constructor; [cbn; lia | constructor].
  - exact Hnew.
  - unfold updateTodo.
    destruct (list_find _ _) as [[index old]|] eqn:Hfind; [|by split].
    apply list_find_Some in Hfind as (Hi & _ & _).
    unfold todo_ids_fresh. cbn [fst snd todos nextId]. split.
    + by rewrite (ids_insert_same _ _ old).
    + apply Forall_insert; [done|]. rewrite patch_id.
      by eapply (Forall_lookup_1 _ _ _ _ Hlt).
  - unfold todo_ids_fresh, deleteTodo. cbn [fst snd todos nextId]. split.
    + by apply NoDup_fmap_filter.
    + apply Forall_forall. intros todo [_ Hin]%list_elem_of_filter.
      rewrite Forall_forall in Hlt. by apply Hlt.
  - unfold toggleComplete.
    destruct (list_find _ _) as [[index old]|] eqn:Hfind; [|by split].
    apply list_find_Some in Hfind as (Hi & _ & _).
    unfold todo_ids_fresh. cbn [fst snd todos nextId]. split.
    + by rewrite (ids_insert_same _ _ old).
    + apply Forall_insert; [done|]. cbn [toggled Todo.id].
      by eapply (Forall_lookup_1 _ _ _ _ Hlt).
Qed.

Lemma todo_ids_stay_fresh_witness :
  todo_ids_fresh (createTodo 3000 {| cti_title := "Call bank"; cti_completed := None;
                                     cti_userId := None |} sampleTodos persisted).1.2.
Proof.
  refine (proj1 (todo_ids_stay_fresh 3000
                   {| cti_title := "Call bank"; cti_completed := None; cti_userId := None |}
                   unknownTodo (IdNum 2) sampleTodos persisted _)).
  split; apply (bool_decide_unpack _); vm_compute; exact I.
Defined.


(** X3.  Creating a task never changes what an id that was already stored
    resolves to; and when the ids are fresh, the created task is what its
    own id resolves to afterwards. *)
Theorem createTodo_then_getTodoById (now : Date) (create : CreateTodoInput)
    (this : t) (localStorage : Storage) :
  todo_ids_fresh this →
  let r := createTodo now create this localStorage in
  getTodoById (IdNum (Todo.id r.1.1)) r.1.2 = Some r.1.1
  ∧ ∀ id todo, getTodoById id this = Some todo → getTodoById id r.1.2 = Some todo.
Proof.
  intros [_ Hlt]. cbn zeta. unfold createTodo, getTodoById, find.
  cbn [fst snd todos nextId numericId Todo.id]. split.
  - rewrite list_find_app_r.
    + cbn. by rewrite decide_True.
    + apply list_find_None. eapply Forall_impl; [exact Hlt|].
      cbn. intros todo Hid [= Heq]. lia.
  - intros id todo.
    destruct (list_find _ (todos this)) as [[index found]|] eqn:Hfind; [|done].
    intros [= ->]. by erewrite list_find_app_l.
Qed.

Lemma createTodo_then_getTodoById_witness :
  let r := createTodo 3000 {| cti_title := "Call bank"; cti_completed := None;
                              cti_userId := None |} sampleTodos persisted in
  getTodoById (IdNum (Todo.id r.1.1)) r.1.2 = Some r.1.1.
Proof.
  refine (proj1 (createTodo_then_getTodoById 3000
                   {| cti_title := "Call bank"; cti_completed := None; cti_userId := None |}
                   sampleTodos persisted _)).
  split; apply (bool_decide_unpack _); vm_compute; exact I.
Defined.

(** X4.  After [deleteTodo] the id resolves to nothing, whatever it resolved
    to before, and deleting it once more reports false and changes
    neither the adapter nor the storage. *)
Theorem deleteTodo_then_gone (id : IdArg) (this : t) (localStorage : Storage) :
  let r := deleteTodo id this localStorage in
  getTodoById id r.1.2 = None
  ∧ deleteTodo id r.1.2 r.2 = (false, r.1.2, r.2).
Proof.
  cbn zeta.
  assert (Hgone : Forall (λ todo, Int (Todo.id todo) ≠ numericId id)
                    (todos (deleteTodo id this localStorage).1.2)).
  { unfold deleteTodo. cbn [fst snd todos]. apply Forall_forall.
    by intros todo [Hne _]%list_elem_of_filter. }
  split.
  - unfold getTodoById, find.
    by rewrite (proj2 (list_find_None (λ todo, Int (Todo.id todo) = numericId id) _)).
  - by apply MockTodoFacts.deleteTodo_unknown.
Qed.

(** X5.  [updateTodo] and [toggleComplete] touch one task only: the list of
    ids, in order, and the counter are what they were, and so is every
    task whose id is not the one asked for. *)
Theorem update_and_toggle_touch_one_task (now : Date)
    (update : UpdateTodoInput) (id : IdArg) (this : t) (localStorage : Storage) :
  let u := (updateTodo now update this localStorage).1.2 in
  let g := (toggleComplete now id this localStorage).1.2 in
  (Todo.id <$> todos u = Todo.id <$> todos this
   ∧ nextId u = nextId this
   ∧ filter (λ todo, Todo.id todo ≠ uti_id update) (todos u)
     = filter (λ todo, Todo.id todo ≠ uti_id update) (todos this))
  ∧ (Todo.id <$> todos g = Todo.id <$> todos this
     ∧ nextId g = nextId this
     ∧ filter (λ todo, Int (Todo.id todo) ≠ numericId id) (todos g)
       = filter (λ todo, Int (Todo.id todo) ≠ numericId id) (todos this)).
Proof.
  cbn zeta. split.
  - unfold updateTodo.
    destruct (list_find _ _) as [[index old]|] eqn:Hfind; [|done].
    apply list_find_Some in Hfind as (Hi & Hid & _). cbn [fst snd todos nextId].
    split_and!; [by rewrite (ids_insert_same _ _ old) | done |].
    apply (filter_insert_dropped _ _ _ old); [done | tauto |].
    rewrite patch_id. tauto.
  - unfold toggleComplete.
    destruct (list_find _ _) as [[index old]|] eqn:Hfind; [|done].
    apply list_find_Some in Hfind as (Hi & Hid & _). cbn [fst snd todos nextId].
    split_and!; [by rewrite (ids_insert_same _ _ old) | done |].
    apply (filter_insert_dropped _ _ _ old); [done | tauto |].
    cbn [toggled Todo.id]. tauto.
Qed.

(** X6.  A string id in which [parseInt] finds no numeral matches no task:
    the lookup finds nothing, and neither [deleteTodo] nor
    [toggleComplete] changes anything. *)
Theorem unparsable_id_matches_nothing (now : Date) (s : string)
    (this : t) (localStorage : Storage) :
  parseInt s = NaN →
  getTodoById (IdStr s) this = None
  ∧ deleteTodo (IdStr s) this localStorage = (false, this, localStorage)
  ∧ toggleComplete now (IdStr s) this localStorage = (None, this, localStorage).
Proof.
  intros Hnan.
  assert (Hnone : list_find (λ todo, Int (Todo.id todo) = numericId (IdStr s)) (todos this)
                  = None).
  { apply list_find_None, Forall_forall. intros todo _. cbn [numericId].
    by rewrite Hnan. }
  split_and!.
  - unfold getTodoById, find. by rewrite Hnone.
  - apply MockTodoFacts.deleteTodo_unknown, Forall_forall. intros todo _.
    cbn [numericId]. by rewrite Hnan.
  - unfold toggleComplete. by rewrite Hnone.
Qed.

Lemma unparsable_id_matches_nothing_witness :
  getTodoById (IdStr "abc") sampleTodos = None
  ∧ deleteTodo (IdStr "abc") sampleTodos persisted = (false, sampleTodos, persisted)
  ∧ toggleComplete 3000 (IdStr "abc") sampleTodos persisted = (None, sampleTodos, persisted).
Proof.
  apply (unparsable_id_matches_nothing 3000 "abc" sampleTodos persisted).
  vm_compute. reflexivity.
Defined.

(** X8.  [fillWithSampleData] discards whatever the adapter held and installs
    seven tasks numbered consecutively from the counter, three of them
    completed; it moves the counter past them, so the ids are fresh
    whatever the state before, and it writes the seven tasks to the slot. *)
Theorem fillWithSampleData_todos (dates : SeedDates) (this : t) (localStorage : Storage) :
  let r := fillWithSampleData dates this localStorage in
  Todo.id <$> todos r.1 = (λ i, nextId this + Z.of_nat i) <$> seq 0 7
  ∧ nextId r.1 = nextId this + 7
  ∧ length (filter (λ todo, Todo.completed todo = true) (todos r.1)) = 3%nat
  ∧ todo_ids_fresh r.1
  ∧ r.2 !! LOCAL_STORAGE_KEY = Some (TodoArray (todo_to_json <$> todos r.1)).
Proof.
  cbn zeta. unfold fillWithSampleData, generateSeedData.
  cbn [generateTodoSeedData length Nat.ltb Nat.leb fmap list_fmap Math_max Todo.id].
  replace (nextId this `max` _) with (nextId this + 6) by lia.
  cbn [fst snd todos nextId].
  assert (Hids : Todo.id <$> generateTodoSeedData dates (nextId this)
                 = (λ i, nextId this + Z.of_nat i) <$> seq 0 7).
  { cbn. repeat f_equal; lia. }
  split_and!.
  - exact Hids.
  - lia.
  - reflexivity.
  - split; cbn [todos nextId].
    + change (NoDup (Todo.id <$> generateTodoSeedData dates (nextId this))).
      rewrite Hids. apply NoDup_fmap_2; [|apply NoDup_seq].
      intros i j Hij. lia.
    + repeat constructor; cbn; lia.
  - unfold saveToLocalStorage. cbn [todos].
    match goal with
    | |- context [forallb serializable ?seeds] =>
        assert (Hdates : forallb serializable seeds = true)
          by apply (dates_valid_forallb {| todos := seeds; nextId := 0 |}),
               (seeds_serializable dates (nextId this))
    end.
    by rewrite Hdates, lookup_insert_eq.
Qed.

(** X24.  A task that carries the Invalid Date blocks saving: [toISOString]
    throws inside [saveToLocalStorage], the error is logged and nothing
    is written.  A creation on an adapter that holds such a task leaves
    the storage as it was while the collection grows, so a storage that
    mirrored the collection no longer does; a constructor given such a
    task among its initial ones, over a storage with no task slot,
    takes the initial tasks and leaves the slot absent, so that a
    reload finds none of them. *)
Theorem invalid_date_blocks_saving (now : Date) (create : CreateTodoInput)
    (this : t) (initialTodos : list Todo.t) (localStorage emptyStorage : Storage) :
  Exists (λ todo, serializable todo = false) (todos this) →
  Exists (λ todo, serializable todo = false) initialTodos →
  emptyStorage !! LOCAL_STORAGE_KEY = None →
  (let r := createTodo now create this localStorage in
   r.2 = localStorage
   ∧ length (todos r.1.2) = S (length (todos this))
   ∧ (todos_in_sync this localStorage → ¬ todos_in_sync r.1.2 r.2))
  ∧ (let r := constructor initialTodos emptyStorage in
     todos r.1 = initialTodos
     ∧ r.2 = emptyStorage
     ∧ todos (constructor [] r.2).1 = []
     ∧ ¬ todos_in_sync r.1 r.2).
Proof.
  intros Hthis Hinitial Hslot. cbn zeta.
  assert (Hblocked : ∀ that storage,
            Exists (λ todo, serializable todo = false) (todos that) →
            saveToLocalStorage that storage = storage).
  { intros that storage (todo & Hin & Hbad)%Exists_exists. apply save_blocked.
    intros Hvalid. apply (proj1 (Forall_forall _ _) Hvalid) in Hin. congruence. }
  split.
  - unfold createTodo. cbn [fst snd todos].
    rewrite Hblocked by (cbn [todos]; apply Exists_app; by left).
    split; [done|]. split; [rewrite length_app; cbn; lia|].
    unfold todos_in_sync. cbn [todos]. intros -> Heq.
    apply (f_equal length) in Heq. rewrite length_app in Heq. cbn in Heq. lia.
  - assert (Hload : loadFromLocalStorage initial emptyStorage = initial)
      by (unfold loadFromLocalStorage; by rewrite Hslot).
    unfold constructor. rewrite Hload.
    destruct initialTodos as [|todo rest]; [by apply Exists_nil in Hinitial|].
    cbn [todos initial length Nat.eqb Nat.ltb Nat.leb fst snd nextId].
    rewrite Hblocked by done.
    unfold todos_in_sync. rewrite constructor_no_initial. cbn [fst todos].
    rewrite Hload. by cbn [todos initial].
Qed.

Lemma invalid_date_blocks_saving_witness :
  (constructor [undated] ∅).2 !! LOCAL_STORAGE_KEY = None
  ∧ todos (constructor [undated] ∅).1 = [undated].
Proof.
  destruct (invalid_date_blocks_saving 3000
              {| cti_title := "Call bank"; cti_completed := None; cti_userId := None |}
              {| todos := [undated]; nextId := 2 |} [undated] persisted ∅)
    as (_ & Htodos & Hstorage & _).
  - apply (bool_decide_unpack _). vm_compute. exact I.
  - apply (bool_decide_unpack _). vm_compute. exact I.
  - reflexivity.
  - cbn zeta in Htodos, Hstorage. rewrite Hstorage. split; [reflexivity | exact Htodos].
Defined.

End MockTodoMore.

Module MockUserMore.
Import MockUserRepository.

Lemma user_json_roundtrip (user : User.t) : user_of_json (user_to_json user) = user.
Proof. destruct user as [? ? ? ? [?|]]; reflexivity. Qed.

Lemma constructor_no_initial_users (localStorage : Storage) :
  constructor [] localStorage = (loadFromLocalStorage initial localStorage, localStorage).
Proof. unfold constructor. by case_match. Qed.

Lemma load_after_save_users (this other : t) (localStorage : Storage) :
  users (loadFromLocalStorage other (saveToLocalStorage this localStorage)) = users this.
Proof.
  unfold loadFromLocalStorage, saveToLocalStorage. rewrite lookup_insert_eq.
  assert (Hback : user_of_json <$> (user_to_json <$> users this) = users this).
  { rewrite <- list_fmap_compose. rewrite <- (list_fmap_id (users this)) at 2.
    apply list_fmap_ext. intros _ user _. apply user_json_roundtrip. }
  rewrite Hback. by repeat case_match.
Qed.

Lemma saved_users_in_sync (this : t) (localStorage : Storage) :
  users_in_sync this (saveToLocalStorage this localStorage).
Proof.
  unfold users_in_sync. rewrite constructor_no_initial_users. cbn [fst].
  apply load_after_save_users.
Qed.

Lemma user_ids_insert_same (l : list User.t) (i : nat) (old new : User.t) :
  l !! i = Some old → User.id new = User.id old →
  User.id <$> <[i := new]> l = User.id <$> l.
Proof.
  intros Hi Hid. rewrite list_fmap_insert. apply list_insert_id.
  by rewrite list_lookup_fmap, Hi, Hid.
Qed.



(** X10.  Within the life of one user adapter the ids stay pairwise distinct
    and below the counter, and a created user gets an id that no stored
    user carries. *)
Theorem user_ids_stay_fresh (now : Date)
    (create : CreateUserInput) (update : UpdateUserInput) (id : Z)
    (this : t) (localStorage : Storage) :
  user_ids_fresh this →
  user_ids_fresh (createUser now create this localStorage).1.2
  ∧ (let created := (createUser now create this localStorage).1.1 in
     User.id created ∉ User.id <$> users this)
  ∧ user_ids_fresh (updateUser now update this localStorage).1.2
  ∧ user_ids_fresh (deleteUser id this localStorage).1.2.
Proof.
  intros [Hnd Hlt].
  assert (Hnew : nextId this ∉ User.id <$> users this).
  { intros (user & Heq & Hin)%list_elem_of_fmap.
    rewrite Forall_forall in Hlt. specialize (Hlt _ Hin). lia. }
  split; [|split; [|split]].
  - unfold user_ids_fresh, createUser. cbn [fst snd users nextId]. split.
    + rewrite fmap_app. apply NoDup_app. split_and!; [done| |apply NoDup_singleton].
      intros x Hx Hin. apply list_elem_of_singleton in Hin. cbn in Hin. by subst x.
    + apply Forall_app. split.
      * eapply Forall_impl; [exact Hlt|]. cbn. intros. lia.
      * constructor; [cbn; lia | constructor].
  - exact Hnew.
  - unfold updateUser.
    destruct (list_find _ _) as [[index old]|] eqn:Hfind; [|by split].
    apply list_find_Some in Hfind as (Hi & _ & _).
    unfold user_ids_fresh. cbn [fst snd users nextId]. split.
    + by rewrite (user_ids_insert_same _ _ old).
    + apply Forall_insert; [done|]. cbn [patch User.id].
      by eapply (Forall_lookup_1 _ _ _ _ Hlt).
  - unfold user_ids_fresh, deleteUser. cbn [fst snd users nextId]. split.
    + by apply NoDup_fmap_filter.
    + apply Forall_forall. intros user [_ Hin]%list_elem_of_filter.
      rewrite Forall_forall in Hlt. by apply Hlt.
Qed.

Lemma user_ids_stay_fresh_witness :
  user_ids_fresh (createUser 3000 {| cui_name := "Eva"; cui_email := "eva@example.com" |}
                    sampleUsers persisted).1.2.
Proof.
  refine (proj1 (user_ids_stay_fresh 3000
                   {| cui_name := "Eva"; cui_email := "eva@example.com" |}
                   unknownUser 2 sampleUsers persisted _)).
  split; apply (bool_decide_unpack _); vm_compute; exact I.
Defined.

(** X11.  A user adapter constructed over a slot that holds users with
    pairwise distinct ids starts with fresh ids: its counter is above
    every stored id, whatever initial users the constructor was given. *)
Theorem user_reload_ids_fresh (initialUsers : list User.t) (localStorage : Storage)
    (stored : list UserJson) :
  localStorage !! LOCAL_STORAGE_KEY = Some (UserArray stored) →
  stored ≠ [] →
  NoDup (uj_id <$> stored) →
  user_ids_fresh (constructor initialUsers localStorage).1
  ∧ (constructor initialUsers localStorage).2 = localStorage.
Proof.
  intros Hslot Hne Hnd.
  destruct (MockUserFacts.constructor_reload initialUsers _ _ Hslot Hne) as [Husers Hlt].
  split.
  - unfold user_ids_fresh. rewrite Husers. split.
    + by rewrite <- list_fmap_compose.
    + by apply Forall_fmap.
  - unfold constructor, loadFromLocalStorage. rewrite Hslot.
    destruct stored as [|u stored]; [done|].
    cbn [fmap list_fmap length Nat.ltb Nat.leb]. by repeat case_match.
Qed.

Lemma user_reload_ids_fresh_witness :
  user_ids_fresh (constructor [] persisted).1.
Proof.
  refine (proj1 (user_reload_ids_fresh [] persisted (user_to_json <$> [ana; luis]) _ _ _)).
  - vm_compute. reflexivity.
  - discriminate.
  - apply (bool_decide_unpack _); vm_compute; exact I.
Defined.

(** X12.  [fillWithSampleData] replaces the users by three seed users
    numbered consecutively from the counter, created now, one day ago
    and two days ago; the counter moves past them, so the ids are fresh
    whatever the state before. *)
Theorem fillWithSampleData_users (now : Date) (this : t) (localStorage : Storage) :
  let r := fillWithSampleData now this localStorage in
  User.id <$> users r.1 = [nextId this; nextId this + 1; nextId this + 2]
  ∧ User.createdAt <$> users r.1 = [now; now - 86400000; now - 172800000]
  ∧ nextId r.1 = nextId this + 3
  ∧ user_ids_fresh r.1
  ∧ r.2 !! LOCAL_STORAGE_KEY = Some (UserArray (user_to_json <$> users r.1)).
Proof.
  cbn zeta. unfold fillWithSampleData, generateSeedData.
  cbn [generateUserSeedData length Nat.ltb Nat.leb fmap list_fmap Math_max User.id].
  replace (nextId this `max` _) with (nextId this + 2) by lia.
  cbn [fst snd users nextId].
  split_and!.
  - reflexivity.
  - reflexivity.
  - lia.
  - split; cbn [users nextId].
    + cbn. repeat (apply NoDup_cons; split); [| |set_solver|apply NoDup_nil_2].
      * intros Hin. repeat (apply elem_of_cons in Hin as [Hin|Hin]; [lia|]).
        by apply elem_of_nil in Hin.
      * intros Hin. repeat (apply elem_of_cons in Hin as [Hin|Hin]; [lia|]).
        by apply elem_of_nil in Hin.
    + repeat constructor; cbn; lia.
  - unfold saveToLocalStorage. by rewrite lookup_insert_eq.
Qed.

End MockUserMore.

(** * Lenient parsing of string ids *)

Section ParseIntMore.

Import NilEmpty.

Ltac decimal_digit :=
  erewrite parse_digits_step; [ | vm_compute; reflexivity | lia ].

Lemma append_cons (c : ascii) (s t : string) : String c s +:+ t = String c (s +:+ t).
Proof. reflexivity. Qed.

Lemma append_nil (t : string) : EmptyString +:+ t = t.
Proof. reflexivity. Qed.

Lemma append_assoc (s t u : string) : (s +:+ t) +:+ u = s +:+ (t +:+ u).
Proof. induction s as [|c s IH]; [done|]. by rewrite !append_cons, IH. Qed.

(** [trimStart] skips one white-space character, of one, two or three bytes. *)
Lemma trimStart_char (char s : string) :
  char ∈ StrWhiteSpaceChars → trimStart (char +:+ s) = trimStart s.
Proof.
  unfold StrWhiteSpaceChars. cbn [fmap list_fmap].
  intros Hchar.
  repeat (apply elem_of_cons in Hchar as [->|Hchar]; [reflexivity|]).
  by apply elem_of_nil in Hchar.
Qed.

Lemma trimStart_whitespace (chars : list string) (s : string) :
  all_whitespace chars → trimStart (white_space chars +:+ s) = trimStart s.
Proof.
  induction 1 as [|char chars Hchar _ IH]; [done|].
  cbn [white_space foldr]. rewrite append_assoc, trimStart_char by done. exact IH.
Qed.

Lemma parse_digits_end (v : Z) (rest : string) :
  ends_numeral rest = true → parse_digits 10 (Some v) rest = Some v.
Proof.
  destruct rest as [|c rest]; [done|]. cbn [ends_numeral parse_digits].
  intros [_ Hc]%andb_prop. destruct (digit_value c) as [d|]; [|done].
  by destruct (Z.ltb_spec d 10); [apply Z.leb_le in Hc; lia|].
Qed.

Lemma parse_digits_acc_app (d : Decimal.uint) (acc : positive) (rest : string) :
  parse_digits 10 (Some (Z.pos acc)) (string_of_uint d +:+ rest)
  = parse_digits 10 (Some (Z.pos (Pos.of_uint_acc d acc))) rest.
Proof.
  revert acc.
  induction d as [|d IH|d IH|d IH|d IH|d IH|d IH|d IH|d IH|d IH|d IH];
    intros acc; [reflexivity | ..];
    cbn [string_of_uint Pos.of_uint_acc]; rewrite append_cons; decimal_digit;
    rewrite <- IH; do 2 f_equal; cbn [from_option id]; lia.
Qed.

Lemma parse_digits_zero_app (d : Decimal.uint) (rest : string) :
  parse_digits 10 (Some 0) (string_of_uint d +:+ rest)
  = parse_digits 10 (Some (Z.of_N (Pos.of_uint d))) rest.
Proof.
  induction d as [|d IH|d IH|d IH|d IH|d IH|d IH|d IH|d IH|d IH|d IH];
    [reflexivity | ..];
    cbn [string_of_uint Pos.of_uint]; rewrite append_cons; decimal_digit;
    cbn [from_option id]; first [ exact IH | apply parse_digits_acc_app ].
Qed.

Lemma parse_digits_uint_app (d : Decimal.uint) (rest : string) :
  d ≠ Decimal.Nil →
  parse_digits 10 None (string_of_uint d +:+ rest)
  = parse_digits 10 (Some (Z.of_N (Pos.of_uint d))) rest.
Proof.
  intros Hd. destruct d; [done | ..];
    cbn [string_of_uint Pos.of_uint]; rewrite append_cons; decimal_digit;
    cbn [from_option id]; first [ apply parse_digits_zero_app | apply parse_digits_acc_app ].
Qed.

Lemma trimStart_uint_app (d : Decimal.uint) (rest : string) :
  d ≠ Decimal.Nil → trimStart (string_of_uint d +:+ rest) = string_of_uint d +:+ rest.
Proof.
  intros Hd. destruct d; [done|..]; cbn [string_of_uint]; rewrite append_cons;
    (apply trimStart_ascii; [vm_compute|]; reflexivity).
Qed.

Lemma strip_sign_uint_app (d : Decimal.uint) (rest : string) :
  d ≠ Decimal.Nil →
  strip_sign (string_of_uint d +:+ rest) = (1, string_of_uint d +:+ rest).
Proof. intros Hd. destruct d; done. Qed.

Lemma strip_prefix_uint_app (d : Decimal.uint) (rest : string) :
  d ≠ Decimal.Nil → ends_numeral rest = true →
  strip_prefix (string_of_uint d +:+ rest) = (10, string_of_uint d +:+ rest).
Proof.
  intros Hd Hrest. destruct d as [|d|d|d|d|d|d|d|d|d|d]; try done.
  destruct d; try done. cbn [string_of_uint]. rewrite append_cons, append_nil.
  destruct rest as [|c rest]; [done|]. cbn [ends_numeral] in Hrest.
  apply andb_prop in Hrest as [[Hx HX]%andb_prop _].
  unfold strip_prefix.
  destruct (Ascii.eqb_spec c "x") as [->|Hnx]; [done|].
  destruct (Ascii.eqb_spec c "X") as [->|HnX]; [done|].
  destruct c as [[] [] [] [] [] [] [] []]; done.
Qed.

Lemma minus_append (s : string) : "-" +:+ s = String "-" s.
Proof. reflexivity. Qed.

Lemma trimStart_minus (s : string) : trimStart (String "-" s) = String "-" s.
Proof. apply trimStart_ascii; [vm_compute|]; reflexivity. Qed.

Lemma strip_sign_minus (s : string) : strip_sign (String "-" s) = (-1, s).
Proof. reflexivity. Qed.

(** The digits of a numeral are read up to the first character that is
    not one, after any leading white space and an optional minus. *)
Lemma parseInt_numeral_inside (n : N) (chars : list string) (rest : string) :
  all_whitespace chars → ends_numeral rest = true →
  parseInt (white_space chars +:+ decimal n +:+ rest) = Int (Z.of_N n)
  ∧ parseInt (white_space chars +:+ "-" +:+ decimal n +:+ rest) = Int (- Z.of_N n).
Proof.
  intros Hws Hrest. unfold parseInt, decimal.
  pose proof (to_uint_not_Nil n) as Hd.
  split; rewrite trimStart_whitespace by done.
  - rewrite trimStart_uint_app, strip_sign_uint_app, strip_prefix_uint_app by done.
    rewrite parse_digits_uint_app, parse_digits_end by done.
    change (Pos.of_uint (N.to_uint n)) with (N.of_uint (N.to_uint n)).
    rewrite DecimalN.Unsigned.of_to. f_equal; lia.
  - rewrite minus_append, trimStart_minus, strip_sign_minus.
    rewrite strip_prefix_uint_app by done.
    rewrite parse_digits_uint_app, parse_digits_end by done.
    change (Pos.of_uint (N.to_uint n)) with (N.of_uint (N.to_uint n)).
    rewrite DecimalN.Unsigned.of_to. f_equal; lia.
Qed.

End ParseIntMore.

Section StringIds.
Import MockTodoRepository.

(** X7.  A string id is read like [parseInt] reads it: white space in front
    of the numeral, any of the white-space characters of the language,
    and anything that is not a digit behind it are ignored, so such a
    string selects the same task as the number, and with a minus in
    front it selects what the negated number selects. *)
Theorem string_id_numeral_inside (n : N) (chars : list string) (rest : string)
    (now : Date) (this : t) (localStorage : Storage) :
  all_whitespace chars → ends_numeral rest = true →
  let id := IdStr (white_space chars +:+ decimal n +:+ rest) in
  let negative := IdStr (white_space chars +:+ "-" +:+ decimal n +:+ rest) in
  (getTodoById id this = getTodoById (IdNum (Z.of_N n)) this
   ∧ deleteTodo id this localStorage = deleteTodo (IdNum (Z.of_N n)) this localStorage
   ∧ toggleComplete now id this localStorage
     = toggleComplete now (IdNum (Z.of_N n)) this localStorage)
  ∧ (getTodoById negative this = getTodoById (IdNum (- Z.of_N n)) this
     ∧ deleteTodo negative this localStorage
       = deleteTodo (IdNum (- Z.of_N n)) this localStorage
     ∧ toggleComplete now negative this localStorage
       = toggleComplete now (IdNum (- Z.of_N n)) this localStorage).
Proof.
  intros Hws Hrest. cbn zeta.
  destruct (parseInt_numeral_inside n chars rest Hws Hrest) as [Hpos Hneg].
  unfold getTodoById, deleteTodo, toggleComplete, numericId.
  by rewrite Hpos, Hneg.
Qed.

Lemma string_id_numeral_inside_witness :
  getTodoById (IdStr (white_space [" "; utf8 [0xC2; 0xA0]%nat; utf8 [0xE2; 0x80; 0x83]%nat]
                      +:+ "2" +:+ "px")) sampleTodos
  = Some groceries.
Proof.
  refine (eq_trans (proj1 (proj1 (string_id_numeral_inside 2
                                    [" "; utf8 [0xC2; 0xA0]%nat; utf8 [0xE2; 0x80; 0x83]%nat]
                                    "px" 3000 sampleTodos persisted _ _))) _).
  - apply (bool_decide_unpack _). vm_compute. exact I.
  - vm_compute. reflexivity.
  - vm_compute. reflexivity.
Defined.

End StringIds.

(** * The task store over its repository *)

Section TodoAppFacts.
Import TodoApp.

(** With distinct ids, replacing by id is overwriting the slot that
    holds the id. *)
Lemma replaceById_insert (l : list Todo.t) (i : nat) (old u : Todo.t) :
  NoDup (Todo.id <$> l) → l !! i = Some old → Todo.id u = Todo.id old →
  TodoStore.replaceById u l = <[i := u]> l.
Proof.
  intros Hnd Hi Hid. apply list_eq. intros j. unfold TodoStore.replaceById.
  rewrite list_lookup_fmap. destruct (decide (i = j)) as [<-|Hne].
  - rewrite Hi, list_lookup_insert_eq by by eapply lookup_lt_Some.
    cbn. by rewrite decide_True.
  - rewrite list_lookup_insert_ne by done.
    destruct (l !! j) as [y|] eqn:Hj; [|done]. cbn.
    rewrite decide_False; [done|]. intros Heq. apply Hne.
    apply (NoDup_lookup (Todo.id <$> l) i j (Todo.id old)); [done|..];
      rewrite list_lookup_fmap; [by rewrite Hi | rewrite Hj; cbn; congruence].
Qed.

Lemma store_filter_number (n : Z) (l : list Todo.t) :
  filter (λ todo, IdNum (Todo.id todo) ≠ IdNum n) l
  = filter (λ todo, Int (Todo.id todo) ≠ Int n) l.
Proof. apply list_filter_iff. intros todo. split; intros Hne Heq; apply Hne; congruence. Qed.

Lemma store_filter_string (s : string) (l : list Todo.t) :
  filter (λ todo, IdNum (Todo.id todo) ≠ IdStr s) l = l.
Proof. apply filter_all, Forall_forall. intros todo _. discriminate. Qed.

(** X15.  While the simulated adapter is active and its ids are distinct, the
    list on screen follows the adapter's collection through adding,
    updating, toggling and deleting by number.  A fetch makes them agree
    whatever they were: in any state [other] of the store, whether or
    not its list agreed with the adapter before, the list after
    [fetchTodos] is the collection of the adapter, which stays the
    active one. *)
Theorem store_mirrors_mock_adapter (now : Date)
    (create : CreateTodoInput) (update : UpdateTodoInput) (n : Z) (id : IdArg)
    (app other : t) (this : MockTodoRepository.t) :
  repository app = Mock this →
  NoDup (Todo.id <$> MockTodoRepository.todos this) →
  mirrors app →
  (mirrors (addTodo now create app)
   ∧ mirrors (updateTodo now update app)
   ∧ mirrors (deleteTodo (IdNum n) app)
   ∧ mirrors (toggleTodoComplete now id app))
  ∧ mirrors (fetchTodos other)
  ∧ repository (fetchTodos other) = repository other.
Proof.
  intros Hrepo Hnd Hmirror. unfold mirrors in Hmirror. rewrite Hrepo in Hmirror.
  split; [split; [|split; [|split]] | split].
  - unfold mirrors, addTodo. rewrite Hrepo. cbn. by rewrite Hmirror.
  - unfold mirrors, updateTodo, MockTodoRepository.updateTodo. rewrite Hrepo.
    destruct (list_find _ _) as [[index old]|] eqn:Hfind;
      cbn -[TodoStore.replaceById MockTodoRepository.patch MockTodoRepository.toggled];
      [|done].
    apply list_find_Some in Hfind as (Hi & _ & _).
    rewrite Hmirror. by apply (replaceById_insert _ _ old).
  - unfold mirrors, deleteTodo, MockTodoRepository.deleteTodo. rewrite Hrepo.
    cbn [MockTodoRepository.todos numericId].
    destruct (Nat.eqb_spec
                (length (filter (λ todo, Int (Todo.id todo) ≠ Int n)
                           (MockTodoRepository.todos this)))
                (length (MockTodoRepository.todos this))) as [Hlen|Hlen]; cbn.
    + by rewrite filter_length_eq.
    + by rewrite store_filter_number, Hmirror.
  - unfold mirrors, toggleTodoComplete, MockTodoRepository.toggleComplete. rewrite Hrepo.
    destruct (list_find _ _) as [[index old]|] eqn:Hfind;
      cbn -[TodoStore.replaceById MockTodoRepository.patch MockTodoRepository.toggled];
      [|done].
    apply list_find_Some in Hfind as (Hi & _ & _).
    rewrite Hmirror. by apply (replaceById_insert _ _ old).
  - unfold mirrors, fetchTodos. cbn [repository state].
    by destruct (repository other).
  - reflexivity.
Qed.


Lemma store_mirrors_mock_adapter_witness :
  mirrors (updateTodo 3000 {| uti_id := 2; uti_title := Some "Buy fruit";
                              uti_completed := None; uti_userId := None |} sampleApp).
Proof.
  refine (proj1 (proj2 (proj1 (store_mirrors_mock_adapter 3000
            {| cti_title := "Call bank"; cti_completed := None; cti_userId := None |}
            {| uti_id := 2; uti_title := Some "Buy fruit";
               uti_completed := None; uti_userId := None |}
            2 (IdNum 2) sampleApp (deleteTodo (IdStr "2") sampleApp) sampleTodos _ _ _)))).
  - reflexivity.
  - apply (bool_decide_unpack _); vm_compute; exact I.
  - reflexivity.
Defined.

(** X16.  Deleting through the store with a string id never removes anything
    from the list on screen, since the list is filtered by strict
    inequality of its numeric ids with the string: that holds for every
    string, every way the repository call may end and every state of
    the store, whichever repository is active.  When the simulated
    adapter is active and the string names a stored task, the adapter
    does delete it, the store ends idle, and the list no longer mirrors
    the adapter. *)
Theorem deleteTodo_string_id_leaves_list (s anyString : string)
    (deleted : Outcome bool) (listed : TodoStore.TodoState) (app other : t)
    (this : MockTodoRepository.t) (todo : Todo.t) :
  repository app = Mock this →
  mirrors app →
  MockTodoRepository.getTodoById (IdStr s) this = Some todo →
  (TodoStore.todos (TodoStore.deleteTodo (IdStr anyString) deleted listed)
   = TodoStore.todos listed
   ∧ TodoStore.todos (state (deleteTodo (IdStr anyString) other))
     = TodoStore.todos (state other))
  ∧ TodoStore.todos (state (deleteTodo (IdStr s) app)) = TodoStore.todos (state app)
  ∧ TodoStore.isLoading (state (deleteTodo (IdStr s) app)) = false
  ∧ ¬ mirrors (deleteTodo (IdStr s) app).
Proof.
  intros Hrepo Hmirror Hget.
  assert (Hany : ∀ result state,
            TodoStore.todos (TodoStore.deleteTodo (IdStr anyString) result state)
            = TodoStore.todos state).
  { intros [[|]|error] state; [|done..].
    cbn [TodoStore.deleteTodo TodoStore.todos TodoStore.started].
    apply store_filter_string. }
  split.
  { split; [apply Hany|]. unfold deleteTodo.
    destruct (repository other) as [client|that]; [apply Hany|].
    destruct (MockTodoRepository.deleteTodo _ _ _) as [[success that'] storage'].
    apply Hany. }
  unfold mirrors in Hmirror. rewrite Hrepo in Hmirror.
  assert (Hin : todo ∈ MockTodoRepository.todos this
                ∧ Int (Todo.id todo) = numericId (IdStr s)).
  { unfold MockTodoRepository.getTodoById, find in Hget.
    destruct (list_find _ _) as [[index found]|] eqn:Hfind; [|done].
    injection Hget as ->. apply list_find_Some in Hfind as (Hi & Hid & _).
    split; [by eapply list_elem_of_lookup_2 | done]. }
  destruct Hin as [Hin Hid].
  unfold mirrors, deleteTodo, MockTodoRepository.deleteTodo. rewrite Hrepo.
  cbn [MockTodoRepository.todos].
  assert (Hlt : (length (filter (λ t, Int (Todo.id t) ≠ numericId (IdStr s))
                           (MockTodoRepository.todos this))
                 < length (MockTodoRepository.todos this))%nat).
  { apply (length_filter_lt _ _ todo); [done | tauto]. }
  destruct (Nat.eqb_spec
              (length (filter (λ t, Int (Todo.id t) ≠ numericId (IdStr s))
                         (MockTodoRepository.todos this)))
              (length (MockTodoRepository.todos this))) as [Hlen|Hlen]; [lia|].
  cbn -[numericId]. rewrite store_filter_string. split_and!; [done..|].
  rewrite Hmirror. intros Heq. rewrite <- Heq in Hlt. lia.
Qed.

Lemma deleteTodo_string_id_leaves_list_witness :
  TodoStore.todos (state (deleteTodo (IdStr "7") offlineApp))
  = TodoStore.todos (state offlineApp)
  ∧ TodoStore.todos (state (deleteTodo (IdStr "2") sampleApp)) = [report; groceries]
  ∧ TodoStore.isLoading (state (deleteTodo (IdStr "2") sampleApp)) = false
  ∧ ¬ mirrors (deleteTodo (IdStr "2") sampleApp).
Proof.
  destruct (deleteTodo_string_id_leaves_list "2" "7" (Returns true) TodoStore.initial
              sampleApp offlineApp sampleTodos groceries)
    as ((_ & Hother) & Hlist & Hidle & Hmirror);
    [vm_compute; reflexivity..|].
  split; [exact Hother|]. split; [exact Hlist|]. split; [exact Hidle | exact Hmirror].
Defined.

Lemma changeDataSource_graphql_storage
    (network : string → GraphQLTodoRepository.ApolloClient)
    (config : option Config) (app : t) :
  localStorage (changeDataSource network graphql config app) = localStorage app.
Proof. reflexivity. Qed.

(** Switching to the simulated source: the list is read off a new
    adapter constructed over the storage. *)
Lemma changeDataSource_mock (network : string → GraphQLTodoRepository.ApolloClient)
    (app : t) :
  changeDataSource network mock None app
  = let this := MockTodoRepository.loadFromLocalStorage MockTodoRepository.initial
                  (localStorage app) in
    {| state := {| TodoStore.todos := MockTodoRepository.todos this;
                   TodoStore.isLoading := false;
                   TodoStore.error := None |};
       dataSource := mock;
       repository := Mock this;
       localStorage := localStorage app |}.
Proof.
  unfold changeDataSource, createRepository.
  cbn [mbind option_bind default from_option id].
  by rewrite MockTodoMore.constructor_no_initial.
Qed.

(** X17.  Switching to the GraphQL source and back to the simulated one shows
    again exactly the tasks the simulated adapter held, as long as its
    storage mirrored them: the list comes from a new adapter constructed
    over the storage, the store is idle without error, and the new
    adapter's counter is back at 1. *)
Theorem switch_away_and_back (network : string → GraphQLTodoRepository.ApolloClient)
    (config : option Config) (app : t) (this : MockTodoRepository.t) :
  repository app = Mock this →
  todos_in_sync this (localStorage app) →
  let back := changeDataSource network mock None
                (changeDataSource network graphql config app) in
  TodoStore.todos (state back) = MockTodoRepository.todos this
  ∧ TodoStore.isLoading (state back) = false
  ∧ TodoStore.error (state back) = None
  ∧ dataSource back = mock
  ∧ localStorage back = localStorage app
  ∧ ∃ this', repository back = Mock this'
             ∧ MockTodoRepository.todos this' = MockTodoRepository.todos this
             ∧ MockTodoRepository.nextId this' = 1.
Proof.
  intros _ Hsync. cbn zeta. unfold todos_in_sync in Hsync.
  rewrite MockTodoMore.constructor_no_initial in Hsync. cbn [fst] in Hsync.
  rewrite changeDataSource_mock, changeDataSource_graphql_storage.
  cbn [state dataSource repository localStorage
       TodoStore.todos TodoStore.isLoading TodoStore.error].
  split_and!; try done.
  eexists. split_and!; [done | done |].
  pose proof (MockTodoFacts.constructor_nextId [] (localStorage app)) as Hnext.
  by rewrite MockTodoMore.constructor_no_initial in Hnext.
Qed.

Lemma switch_away_and_back_witness :
  TodoStore.todos
    (state (changeDataSource (λ _, offlineTodos) mock None
              (changeDataSource (λ _, offlineTodos) graphql None sampleApp)))
  = [report; groceries].
Proof.
  refine (proj1 (switch_away_and_back (λ _, offlineTodos) None sampleApp sampleTodos _ _)).
  - reflexivity.
  - vm_compute. reflexivity.
Defined.

(** X18.  Through the GraphQL adapter the store never learns that an update,
    a delete or a toggle failed: whenever the transport rejects one of
    these requests, whatever it does with the others, the action ends
    with no error message, the list untouched, and the loading flag
    still set. *)
Theorem graphql_failure_is_silent (now : Date) (update : UpdateTodoInput) (id : IdArg)
    (app : t) (client : GraphQLTodoRepository.ApolloClient) (e1 e2 e3 : Thrown) :
  repository app = GraphQL client →
  (GraphQLTodoRepository.UPDATE_TODO client update = Throws e1 →
   state (updateTodo now update app) = TodoStore.started (state app))
  ∧ (GraphQLTodoRepository.DELETE_TODO client (id_text id) = Throws e2 →
     state (deleteTodo id app) = TodoStore.started (state app))
  ∧ (GraphQLTodoRepository.TOGGLE_COMPLETE client (id_text id) = Throws e3 →
     state (toggleTodoComplete now id app) = TodoStore.started (state app))
  ∧ TodoStore.isLoading (TodoStore.started (state app)) = true
  ∧ TodoStore.error (TodoStore.started (state app)) = None
  ∧ TodoStore.todos (TodoStore.started (state app)) = TodoStore.todos (state app).
Proof.
  intros Hrepo.
  unfold updateTodo, deleteTodo, toggleTodoComplete. rewrite Hrepo. cbn [state].
  unfold GraphQLTodoRepository.updateTodo, GraphQLTodoRepository.deleteTodo,
    GraphQLTodoRepository.toggleComplete.
  split; [|split; [|split]]; [by intros ->..|done].
Qed.

Lemma graphql_failure_is_silent_witness :
  let updatesFail :=
    {| GraphQLTodoRepository.GET_TODOS := Returns (Some []);
       GraphQLTodoRepository.GET_TODO_BY_ID := λ _, Returns (Some None);
       GraphQLTodoRepository.CREATE_TODO := λ _, Returns (Some None);
       GraphQLTodoRepository.UPDATE_TODO := λ _, Throws networkError;
       GraphQLTodoRepository.DELETE_TODO := λ _, Returns (Some true);
       GraphQLTodoRepository.TOGGLE_COMPLETE := λ _, Returns (Some None) |} in
  let app :=
    {| state := state sampleApp; dataSource := graphql;
       repository := GraphQL updatesFail; localStorage := localStorage sampleApp |} in
  TodoStore.isLoading (state (updateTodo 3000 unknownTodo app)) = true
  ∧ TodoStore.error (state (updateTodo 3000 unknownTodo app)) = None
  ∧ TodoStore.todos (state (updateTodo 3000 unknownTodo app)) = [report; groceries].
Proof.
  intros updatesFail app.
  destruct (graphql_failure_is_silent 3000 unknownTodo (IdNum 2) app updatesFail
              networkError networkError networkError eq_refl)
    as (Hstate & _ & _ & Hloading & Herror & Hlist).
  rewrite (Hstate eq_refl).
  split; [exact Hloading|]. split; [exact Herror | exact Hlist].
Defined.

End TodoAppFacts.

(** * The user store's selection *)

Section UserStoreFacts.
Import UserStore.

(** X20.  Adding, updating and deleting keep the selected user among the
    listed ones (an update replaces the selected user together with its
    list entry), and so does selecting an id or clearing the selection
    as long as the repository does not supply a user that is not listed.
    In every state [other] of the store, the selection listed or not:
    after a successful delete no listed user and no selected user
    carries the deleted id, and a fetch replaces the list and leaves
    the selection as it was. *)
Theorem selection_stays_listed (state other : UserState)
    (added : Outcome User.t) (updated got : Outcome (option User.t))
    (deleted : Outcome bool) (fetched : Outcome (list User.t)) (id : Z) (e : Thrown) :
  selection_listed state →
  (selection_listed (addUser added state).2
   ∧ selection_listed (updateUser updated state).2
   ∧ selection_listed (deleteUser id deleted state)
   ∧ selection_listed (selectUser None got state)
   ∧ selection_listed (selectUser (Some id) (Returns None) state)
   ∧ selection_listed (selectUser (Some id) (Throws e) state)
   ∧ (id ∈ User.id <$> users state → selection_listed (selectUser (Some id) got state)))
  ∧ Forall (λ user, User.id user ≠ id) (users (deleteUser id (Returns true) other))
  ∧ Forall (λ user, User.id user ≠ id)
      (option_list (selectedUser (deleteUser id (Returns true) other)))
  ∧ selectedUser (fetchUsers fetched other) = selectedUser other
  ∧ match fetched with
    | Returns fetchedUsers => users (fetchUsers fetched other) = fetchedUsers
    | Throws _ => users (fetchUsers fetched other) = users other
    end.
Proof.
  intros Hsel.
  assert (Hhit : ∀ result user,
            find (λ user, User.id user = id) (users state) = Some user →
            selection_listed (selectUser (Some id) result state)).
  { intros result user Hfind. unfold selectUser. rewrite Hfind.
    intros u [= <-]. cbn. unfold find in Hfind.
    destruct (list_find _ _) as [[i x]|] eqn:Hx; [|done]. injection Hfind as ->.
    apply list_find_Some in Hx as (Hi & _). by eapply list_elem_of_lookup_2. }
  assert (Hmiss : ∀ result,
            (∀ user, result ≠ Returns (Some user)) →
            selection_listed (selectUser (Some id) result state)).
  { intros result Hres.
    destruct (find (λ user, User.id user = id) (users state)) as [user|] eqn:Hfind;
      [by apply (Hhit result user)|].
    unfold selectUser. rewrite Hfind.
    destruct result as [[user|]|err]; [by destruct (Hres user) | |].
    - intros u. cbn. discriminate.
    - intros u Hu. cbn in Hu |- *. by apply Hsel. }
  split; [split; [|split; [|split; [|split; [|split; [|split]]]]]
         | split; [|split; [|split]]].
  - destruct added as [newUser|err]; intros user Hu; cbn in Hu |- *.
    + apply elem_of_app. left. by apply Hsel.
    + by apply Hsel.
  - destruct updated as [[u|]|err]; intros user Hu; cbn in Hu |- *;
      [|by apply Hsel..].
    unfold replaceById. destruct (selectedUser state) as [selected|] eqn:Hs; [|done].
    specialize (Hsel selected Hs).
    apply list_elem_of_fmap. exists selected. split; [|done].
    destruct (decide (User.id selected = User.id u)); congruence.
  - destruct deleted as [[|]|err]; intros user Hu; cbn in Hu |- *;
      [|by apply Hsel..].
    destruct (selectedUser state) as [selected|] eqn:Hs; [|done].
    destruct (decide (User.id selected = id)); [done|]. injection Hu as <-.
    apply list_elem_of_filter. split; [done | by apply Hsel].
  - intros user. cbn. discriminate.
  - by apply Hmiss.
  - by apply Hmiss.
  - intros (user & Hid & Hin)%list_elem_of_fmap.
    destruct (list_find_elem_of (λ user, User.id user = id) (users state) user)
      as [[i found] Hfind]; [done..|].
    apply (Hhit got found). unfold find. by rewrite Hfind.
  - cbn. apply Forall_forall. by intros user [Hne _]%list_elem_of_filter.
  - cbn. destruct (selectedUser other) as [selected|]; [|constructor].
    destruct (decide (User.id selected = id)); cbn; [constructor|].
    by constructor.
  - by destruct fetched.
  - by destruct fetched.
Qed.

Lemma selection_stays_listed_witness :
  selection_listed (deleteUser 2 (Returns true) sampleUserState)
  ∧ selectedUser (deleteUser 2 (Returns true) sampleUserState) = None.
Proof.
  split; [|reflexivity].
  refine (proj1 (proj2 (proj2 (proj1 (selection_stays_listed sampleUserState
            (fetchUsers (Returns []) sampleUserState)
            (Returns ana) (Returns None) (Returns None) (Returns true) (Returns [])
            2 networkError _))))).
  intros user [= <-]. apply (bool_decide_unpack _); vm_compute; exact I.
Defined.

End UserStoreFacts.

(** * Seed tasks and seed users together *)

Section SeedFacts.

(** X13.  After both adapters have been filled with sample data, every seed
    task is owned by one of the seed users exactly when the user
    adapter's counter stood at 1: the seed users are numbered from the
    counter, while the seed tasks always name the owners 1, 2 and 3. *)
Theorem seed_owners_exist_iff (dates : SeedDates) (now : Date) (b : Browser) :
  owners_exist (Browser_fillWithSampleData dates now b)
  ↔ MockUserRepository.nextId (userRepository b) = 1.
Proof.
  unfold owners_exist, Browser_fillWithSampleData.
  unfold MockTodoRepository.fillWithSampleData, MockTodoRepository.generateSeedData,
    MockUserRepository.fillWithSampleData, MockUserRepository.generateSeedData.
  cbn [generateTodoSeedData generateUserSeedData length Nat.ltb Nat.leb
       fmap list_fmap Math_max Todo.id User.id].
  cbn [userRepository todoRepository MockUserRepository.users MockTodoRepository.todos].
  set (n := MockUserRepository.nextId (userRepository b)).
  split.
  - intros Hall.
    assert (H1 := Forall_lookup_1 _ _ 0%nat _ Hall eq_refl).
    assert (H3 := Forall_lookup_1 _ _ 5%nat _ Hall eq_refl).
    cbn [Todo.userId] in H1, H3.
    destruct H1 as (u1 & Hu1 & [= Hid1]), H3 as (u3 & Hu3 & [= Hid3]).
    repeat (apply elem_of_cons in Hu1 as [->|Hu1]; [cbn in Hid1|]);
      try (by apply elem_of_nil in Hu1);
      repeat (apply elem_of_cons in Hu3 as [->|Hu3]; [cbn in Hid3|]);
      try (by apply elem_of_nil in Hu3); lia.
  - intros Hn. rewrite Hn. unfold generateUserSeedData.
    repeat (apply Forall_cons; split); try apply Forall_nil_2;
      cbn [Todo.userId];
      first [ eexists; split; [apply list_elem_of_here|reflexivity]
            | eexists; split;
              [apply list_elem_of_further, list_elem_of_here|reflexivity]
            | eexists; split;
              [do 2 apply list_elem_of_further; apply list_elem_of_here|reflexivity] ].
Qed.

End SeedFacts.

(** * The REST adapters *)

Section RestFacts.

(** X22.  In the REST user adapter, a rejected request becomes null (or false,
    for a delete) only when it is an axios error whose response has
    status 404; every other rejection is thrown on to the caller.  This
    holds of each request by itself, whatever the service answers to
    the other requests. *)
Theorem rest_user_only_404_is_absorbed (client : RestUserRepository.AxiosInstance)
    (id : Z) (input : UpdateUserInput) (got patched deleted : AxiosFailure) :
  (RestUserRepository.get_user client id = Rejected got →
   RestUserRepository.getUserById client id
   = (if is404 got then Returns None else Throws (rethrown got)))
  ∧ (RestUserRepository.patch_user client (uui_id input) input = Rejected patched →
     RestUserRepository.updateUser client input
     = (if is404 patched then Returns None else Throws (rethrown patched)))
  ∧ (RestUserRepository.delete_user client id = Rejected deleted →
     RestUserRepository.deleteUser client id
     = (if is404 deleted then Returns false else Throws (rethrown deleted))).
Proof.
  unfold RestUserRepository.getUserById, RestUserRepository.updateUser,
    RestUserRepository.deleteUser.
  split; [|split]; by intros ->.
Qed.

Lemma rest_user_only_404_is_absorbed_witness :
  let readsFail :=
    {| RestUserRepository.get_users := Resolved (Some []);
       RestUserRepository.get_user :=
         λ _, Rejected (AxiosError (Some 500) "Internal Server Error");
       RestUserRepository.post_user := λ _, Resolved (Some (user_to_json ana));
       RestUserRepository.patch_user := λ _ _, Resolved (Some (user_to_json ana));
       RestUserRepository.delete_user := λ _, Resolved () |} in
  RestUserRepository.getUserById readsFail 7 = Throws (ErrorObject "Internal Server Error")
  ∧ RestUserRepository.getUserById missingUserService 7 = Returns None
  ∧ RestUserRepository.updateUser missingUserService unknownUser = Returns None
  ∧ RestUserRepository.deleteUser missingUserService 7
    = Throws (ErrorObject "Internal Server Error").
Proof.
  intros readsFail.
  destruct (rest_user_only_404_is_absorbed readsFail 7 unknownUser
              (AxiosError (Some 500) "Internal Server Error")
              (AxiosError (Some 404) "Not Found") (AxiosError (Some 404) "Not Found"))
    as (Hread & _ & _).
  destruct (rest_user_only_404_is_absorbed missingUserService 7 unknownUser
              (AxiosError (Some 404) "Not Found") (AxiosError (Some 404) "Not Found")
              (AxiosError (Some 500) "Internal Server Error"))
    as (Hget & Hpatch & Hdelete).
  split; [exact (Hread eq_refl)|]. split; [exact (Hget eq_refl)|].
  split; [exact (Hpatch eq_refl) | exact (Hdelete eq_refl)].
Defined.

(** X23.  The REST task adapter never throws from reading, updating, deleting
    or toggling, whatever the service does; a failed listing yields the
    empty list.  [toggleComplete] answers null without looking at any
    PATCH when the task cannot be read, and otherwise returns what the
    PATCH of the negated flag answers, or null when that fails. *)
Theorem rest_todo_absorbs_failures (client : RestTodoRepository.AxiosInstance)
    (id : IdArg) (input : UpdateTodoInput) :
  (didThrow (RestTodoRepository.getTodos client) = false
   ∧ didThrow (RestTodoRepository.getTodoById client id) = false
   ∧ didThrow (RestTodoRepository.updateTodo client input) = false
   ∧ didThrow (RestTodoRepository.deleteTodo client id) = false
   ∧ didThrow (RestTodoRepository.toggleComplete client id) = false)
  ∧ match RestTodoRepository.get_todos client with
    | Resolved (Some todos) =>
        RestTodoRepository.getTodos client = Returns (todo_of_json <$> todos)
    | _ => RestTodoRepository.getTodos client = Returns []
    end
  ∧ match RestTodoRepository.get_todo client (id_text id) with
    | Resolved (Some todo) =>
        RestTodoRepository.toggleComplete client id
        = match RestTodoRepository.patch_todo client (id_text id)
                  (RestTodoRepository.PatchCompleted (negb (tj_completed todo))) with
          | Resolved (Some patched) => Returns (Some (todo_of_json patched))
          | _ => Returns None
          end
    | _ => RestTodoRepository.toggleComplete client id = Returns None
    end.
Proof.
  split; [|split].
  - unfold RestTodoRepository.getTodos, RestTodoRepository.getTodoById,
      RestTodoRepository.updateTodo, RestTodoRepository.deleteTodo,
      RestTodoRepository.toggleComplete.
    rewrite try_catch_returns.
    destruct (RestTodoRepository.get_todos client) as [[?|]|?],
      (RestTodoRepository.get_todo client (id_text id)) as [[?|]|?],
      (RestTodoRepository.patch_todo client _ _) as [[?|]|?],
      (RestTodoRepository.delete_todo client _) as [?|?]; by repeat split.
  - unfold RestTodoRepository.getTodos.
    by destruct (RestTodoRepository.get_todos client) as [[?|]|?].
  - unfold RestTodoRepository.toggleComplete, RestTodoRepository.getTodoById.
    destruct (RestTodoRepository.get_todo client (id_text id)) as [[todo|]|?]; try done.
    cbn. by destruct (RestTodoRepository.patch_todo client _ _) as [[?|]|?].
Qed.

End RestFacts.

(** * Construction with initial entities *)

Section ConstructorFacts.

(** X14.  The initial entities given to a constructor are used only when the
    storage yields no entity: then they become the collection and, none
    of them carrying the Invalid Date, are written to the slot, and the
    counter stays at 1 whatever their ids.  When the slot holds
    entities, the initial ones are ignored and the storage is not
    written. *)
Theorem constructor_initial_entities
    (initialTodos : list Todo.t) (initialUsers : list User.t) (localStorage : Storage)
    (storedTodos : list TodoJson) (storedUsers : list UserJson) :
  initialTodos ≠ [] → initialUsers ≠ [] → storedTodos ≠ [] → storedUsers ≠ [] →
  Forall (λ todo, MockTodoRepository.serializable todo = true) initialTodos →
  user_dates_valid initialUsers →
  (localStorage !! MockTodoRepository.LOCAL_STORAGE_KEY = None →
   let r := MockTodoRepository.constructor initialTodos localStorage in
   MockTodoRepository.todos r.1 = initialTodos
   ∧ MockTodoRepository.nextId r.1 = 1
   ∧ r.2 !! MockTodoRepository.LOCAL_STORAGE_KEY
     = Some (TodoArray (todo_to_json <$> initialTodos))
   ∧ todos_in_sync r.1 r.2)
  ∧ (localStorage !! MockUserRepository.LOCAL_STORAGE_KEY = None →
     let r := MockUserRepository.constructor initialUsers localStorage in
     MockUserRepository.users r.1 = initialUsers
     ∧ MockUserRepository.nextId r.1 = 1
     ∧ r.2 !! MockUserRepository.LOCAL_STORAGE_KEY
       = Some (UserArray (user_to_json <$> initialUsers))
     ∧ users_in_sync r.1 r.2)
  ∧ (localStorage !! MockTodoRepository.LOCAL_STORAGE_KEY = Some (TodoArray storedTodos) →
     MockTodoRepository.constructor initialTodos localStorage
     = MockTodoRepository.constructor [] localStorage)
  ∧ (localStorage !! MockUserRepository.LOCAL_STORAGE_KEY = Some (UserArray storedUsers) →
     MockUserRepository.constructor initialUsers localStorage
     = MockUserRepository.constructor [] localStorage).
Proof.
  intros Htodos Husers Hstored Hstored' Hdates _. split_and!.
  - intros Hslot. cbn zeta.
    unfold MockTodoRepository.constructor, MockTodoRepository.loadFromLocalStorage.
    rewrite Hslot. destruct initialTodos as [|todo rest]; [done|].
    cbn [MockTodoRepository.todos MockTodoRepository.initial length Nat.eqb Nat.ltb
         Nat.leb fst snd MockTodoRepository.nextId].
    split_and!; [done..| |by apply MockTodoMore.saved_in_sync].
    unfold MockTodoRepository.saveToLocalStorage.
    rewrite (MockTodoMore.dates_valid_forallb
               {| MockTodoRepository.todos := todo :: rest;
                  MockTodoRepository.nextId := 1 |} Hdates).
    by rewrite lookup_insert_eq.
  - intros Hslot. cbn zeta.
    unfold MockUserRepository.constructor, MockUserRepository.loadFromLocalStorage.
    rewrite Hslot. destruct initialUsers as [|user rest]; [done|]. cbn.
    split_and!; [done..| |apply MockUserMore.saved_users_in_sync].
    unfold MockUserRepository.saveToLocalStorage. by rewrite lookup_insert_eq.
  - intros Hslot.
    unfold MockTodoRepository.constructor, MockTodoRepository.loadFromLocalStorage.
    rewrite Hslot. by destruct storedTodos.
  - intros Hslot.
    unfold MockUserRepository.constructor, MockUserRepository.loadFromLocalStorage.
    rewrite Hslot. destruct storedUsers as [|u rest]; [done|].
    cbn [fmap list_fmap length Nat.ltb Nat.leb]. by repeat case_match.
Qed.

Lemma constructor_initial_entities_witness :
  MockTodoRepository.todos (MockTodoRepository.constructor [report] ∅).1 = [report]
  ∧ MockTodoRepository.nextId (MockTodoRepository.constructor [report] ∅).1 = 1
  ∧ MockUserRepository.constructor [ana] persisted = MockUserRepository.constructor [] persisted.
Proof.
  assert (Hreport : Forall (λ todo, MockTodoRepository.serializable todo = true) [report])
    by (apply (bool_decide_unpack _); vm_compute; exact I).
  assert (Hana : user_dates_valid [ana])
    by (repeat constructor).
  destruct (constructor_initial_entities [report] [ana] ∅
              [todo_to_json report] [user_to_json ana]) as (Hnew & _ & _ & _);
    [discriminate..|exact Hreport|exact Hana|].
  destruct (constructor_initial_entities [report] [ana] persisted
              (todo_to_json <$> [report; groceries]) (user_to_json <$> [ana; luis]))
    as (_ & _ & _ & Hold); [discriminate..|exact Hreport|exact Hana|].
  destruct (Hnew eq_refl) as (Hlist & Hnext & _).
  split_and!; [exact Hlist | exact Hnext | apply Hold; vm_compute; reflexivity].
Defined.

End ConstructorFacts.

(** * What the stores report *)

Section StoreReports.

(** X21.  After any action of either store the error message says how that
    action's repository call ended and nothing else: it is absent when
    the call returned, whatever message an earlier action had left, and
    present when the call threw, in which case the store is idle. *)
Theorem error_reflects_last_call
    (state : TodoStore.TodoState) (userState : UserStore.UserState)
    (id : IdArg) (userId : Z)
    (fetched : Outcome (list Todo.t)) (added : Outcome Todo.t)
    (updated : Outcome (option Todo.t)) (deleted : Outcome bool)
    (fetchedUsers : Outcome (list User.t)) (addedUser : Outcome User.t)
    (gotUser : Outcome (option User.t)) :
  (let s := TodoStore.fetchTodos fetched state in
   reports fetched (TodoStore.error s) (TodoStore.isLoading s))
  ∧ (let s := TodoStore.addTodo added state in
     reports added (TodoStore.error s) (TodoStore.isLoading s))
  ∧ (let s := TodoStore.updateTodo updated state in
     reports updated (TodoStore.error s) (TodoStore.isLoading s))
  ∧ (let s := TodoStore.deleteTodo id deleted state in
     reports deleted (TodoStore.error s) (TodoStore.isLoading s))
  ∧ (let s := TodoStore.toggleTodoComplete updated state in
     reports updated (TodoStore.error s) (TodoStore.isLoading s))
  ∧ (let s := UserStore.fetchUsers fetchedUsers userState in
     reports fetchedUsers (UserStore.error s) (UserStore.isLoading s))
  ∧ (let s := (UserStore.getUserById gotUser userState).2 in
     reports gotUser (UserStore.error s) (UserStore.isLoading s))
  ∧ (let s := (UserStore.addUser addedUser userState).2 in
     reports addedUser (UserStore.error s) (UserStore.isLoading s))
  ∧ (let s := (UserStore.updateUser gotUser userState).2 in
     reports gotUser (UserStore.error s) (UserStore.isLoading s))
  ∧ (let s := UserStore.deleteUser userId deleted userState in
     reports deleted (UserStore.error s) (UserStore.isLoading s)).
Proof.
  cbn zeta.
  destruct fetched, added, updated as [[?|]|?], deleted as [[|]|?],
    fetchedUsers, addedUser, gotUser as [[?|]|?];
    cbn; repeat split; by eauto.
Qed.

End StoreReports.

Section FailedSwitch.
Import TodoApp.

(** X19.  A switch to a GraphQL source that cannot be listed is not rolled
    back: the store is on the new source, reports the failure, is idle,
    and still shows the list of the previous source; the storage is
    untouched. *)
Theorem failed_switch_keeps_old_list
    (network : string → GraphQLTodoRepository.ApolloClient)
    (config : option Config) (app : t) (e : Thrown) :
  GraphQLTodoRepository.GET_TODOS
    (network (default "http://localhost:4000/graphql" (config ≫= uri))) = Throws e →
  let switched := changeDataSource network graphql config app in
  dataSource switched = graphql
  ∧ TodoStore.todos (state switched) = TodoStore.todos (state app)
  ∧ TodoStore.error (state switched)
    = Some (errorMessage e "Error desconocido al cargar las tareas")
  ∧ TodoStore.isLoading (state switched) = false
  ∧ localStorage switched = localStorage app.
Proof.
  intros Hget. cbn zeta.
  unfold changeDataSource, createRepository, fetchTodos. cbn [repository state].
  unfold GraphQLTodoRepository.getTodos. by rewrite Hget.
Qed.

Lemma failed_switch_keeps_old_list_witness :
  TodoStore.todos (state (changeDataSource (λ _, offlineTodos) graphql None sampleApp))
  = [report; groceries]
  ∧ TodoStore.error (state (changeDataSource (λ _, offlineTodos) graphql None sampleApp))
    = Some "Network error".
Proof.
  destruct (failed_switch_keeps_old_list (λ _, offlineTodos) None sampleApp networkError)
    as (_ & Hlist & Herror & _); [reflexivity|].
  split; [exact Hlist | exact Herror].
Defined.

End FailedSwitch.
